(** * House of Agile email server: the form-submission pipeline

    A shallow embedding of [email_server.py] (class [EmailFormHandler]) and
    the properties of its request-handling pipeline.

    Conventions of the embedding.
    - The module is read with the semantics of Python 3.12 or later: the
      f-string of [_format_email_body] has a backslash inside a replacement
      field, which earlier versions reject at compile time.
    - A Python [str] is a [string] whose characters are the code points
      U+0000..U+00FF; [bytes] are [list byte].
    - A Python [dict] with string keys is a [gmap string _].
    - Effects are explicit: a computation is a function from the state of
      the outside world (log file, mail server, client connection, stderr
      logger) to a result and a new state.  A raised exception keeps the
      effects performed before it.
    - What the operating system, the clock, the network peer and the mail
      server do is given by an oracle ([World], [Request]); library functions
      that are not written out ([bytes.decode], [urllib.parse.parse_qs]) are
      section variables.
    - Writing the response to the client connection is taken to succeed, and
      only exceptions derived from [Exception] are considered. *)

From Stdlib Require Import ZArith Ascii Lia DecimalString.
From Stdlib Require String.
From stdpp Require Import base option list strings gmap.

Local Open Scope Z_scope.

(** ** Characters and strings *)

Definition chr (n : nat) : string := String (ascii_of_nat n) EmptyString.

(** Line feed, double quote and backslash, which have no literal form. *)
Definition LF : string := chr 10.
Definition DQ : string := chr 34.
Definition BSL : string := chr 92.

Fixpoint concat_str (l : list string) : string :=
  match l with
  | [] => ""
  | s :: l' => s +:+ concat_str l'
  end.

(** [sep.join(l)] *)
Fixpoint join (sep : string) (l : list string) : string :=
  match l with
  | [] => ""
  | [s] => s
  | s :: l' => s +:+ sep +:+ join sep l'
  end.

(** [c * n] for a one-character string [c] *)
Fixpoint repeat_str (c : string) (n : nat) : string :=
  match n with
  | O => ""
  | S n' => c +:+ repeat_str c n'
  end.

(** [old] is a prefix of [s] *)
Fixpoint starts_with (old s : string) : bool :=
  match old, s with
  | EmptyString, _ => true
  | String a old', String b s' => bool_decide (a = b) && starts_with old' s'
  | String _ _, EmptyString => false
  end.

(** [needle in hay] *)
Fixpoint contains (needle hay : string) : bool :=
  starts_with needle hay ||
  match hay with
  | EmptyString => false
  | String _ hay' => contains needle hay'
  end.

(** [s.replace(old, new)] for a non-empty [old]: occurrences are replaced
    from left to right without overlap.  [skip] counts the characters of an
    occurrence that has just been replaced and are still to be dropped. *)
Fixpoint replace_from (old new s : string) (skip : nat) : string :=
  match s with
  | EmptyString => ""
  | String c s' =>
      match skip with
      | S k => replace_from old new s' k
      | O =>
          if starts_with old s
          then new +:+ replace_from old new s' (String.length old - 1)
          else String c (replace_from old new s' O)
      end
  end.

Definition replace (old new s : string) : string := replace_from old new s O.

(** ** Exceptions and results *)

(** The exception classes the pipeline can meet; all derive from
    [Exception]. *)
Inductive exn : Type :=
  | ValueError
  | TypeError
  | KeyError
  | OSError
  | UnicodeDecodeError
  | SMTPException
  | SSLError
  | OtherError (name : string).

Inductive result (A : Type) : Type :=
  | Ok (a : A)
  | Raise (e : exn).
Arguments Ok {A} a.
Arguments Raise {A} e.

(** ** [int(str)] *)

Definition digit_value (c : ascii) : option Z :=
  let n := nat_of_ascii c in
  if bool_decide (48 <= n <= 57)%nat then Some (Z.of_nat n - 48) else None.

(** White space that [int] strips: the C-locale space characters, and the
    two Unicode spaces below U+0100 (NEL and NBSP). *)
Definition int_space (c : ascii) : bool :=
  let n := nat_of_ascii c in
  bool_decide (n = 32 \/ (9 <= n <= 13) \/ n = 133 \/ n = 160)%nat.

Fixpoint skip_spaces (s : string) : string :=
  match s with
  | String c s' => if int_space c then skip_spaces s' else s
  | EmptyString => ""
  end.

Definition underscore : ascii := ascii_of_nat 95.

(** Digits with single underscores between them.  [need_digit] holds at the
    start and after an underscore.  Returns the value, the number of digits
    and the unread rest. *)
Fixpoint scan_digits (s : string) (acc : Z) (n : nat) (need_digit : bool)
  : option (Z * nat * string) :=
  match s with
  | String c s' =>
      match digit_value c with
      | Some d => scan_digits s' (10 * acc + d) (S n) false
      | None =>
          if need_digit then None
          else if bool_decide (c = underscore) then scan_digits s' acc n true
          else Some (acc, n, s)
      end
  | EmptyString => if need_digit then None else Some (acc, n, "")
  end.

(** Default of [sys.get_int_max_str_digits()]. *)
Definition max_str_digits : nat := 4300.

Definition int_unsigned (s : string) : option Z :=
  match scan_digits s 0 0%nat true with
  | Some (v, n, rest) =>
      if bool_decide (n <= max_str_digits)%nat
      then match skip_spaces rest with
           | EmptyString => Some v
           | String _ _ => None
           end
      else None
  | None => None
  end.

(** [int(s)] in base ten; [None] stands for [ValueError]. *)
Definition int_of_str (s : string) : option Z :=
  match skip_spaces s with
  | String c s' =>
      if bool_decide (c = ascii_of_nat 45) then Z.opp <$> int_unsigned s'
      else if bool_decide (c = ascii_of_nat 43) then int_unsigned s'
      else int_unsigned (String c s')
  | EmptyString => None
  end.

(** [int(x)] where [x] is a string or [None]. *)
Definition py_int (x : option string) : result Z :=
  match x with
  | None => Raise TypeError
  | Some s =>
      match int_of_str s with
      | Some z => Ok z
      | None => Raise ValueError
      end
  end.

(** Truth value of a string or [None]: [not x]. *)
Definition falsy (x : option string) : bool :=
  match x with
  | None => true
  | Some s => bool_decide (s = "")
  end.

(** ** The clock *)

(** A naive [datetime], as [datetime.now()] returns it. *)
Record datetime : Type := {
  year : nat; month : nat; day : nat;
  hour : nat; minute : nat; second : nat; microsecond : nat
}.

Definition decimal (n : nat) : string := NilZero.string_of_uint (Nat.to_uint n).

(** [f"{n:0{width}d}"] *)
Definition pad (width n : nat) : string :=
  let d := decimal n in
  repeat_str "0" (width - String.length d) +:+ d.

(** [d.isoformat()]: the fraction is printed only when it is not zero. *)
Definition isoformat (d : datetime) : string :=
  pad 4 (year d) +:+ "-" +:+ pad 2 (month d) +:+ "-" +:+ pad 2 (day d) +:+ "T" +:+
  pad 2 (hour d) +:+ ":" +:+ pad 2 (minute d) +:+ ":" +:+ pad 2 (second d) +:+
  (if bool_decide (microsecond d = 0%nat) then ""
   else "." +:+ pad 6 (microsecond d)).

(** [d.strftime('%Y-%m-%d %H:%M:%S UTC')] (for years of four digits). *)
Definition strftime_utc (d : datetime) : string :=
  pad 4 (year d) +:+ "-" +:+ pad 2 (month d) +:+ "-" +:+ pad 2 (day d) +:+ " " +:+
  pad 2 (hour d) +:+ ":" +:+ pad 2 (minute d) +:+ ":" +:+ pad 2 (second d) +:+
  " UTC".

(** ** Data of the handler *)

(** The dictionary built by [_load_email_config]; the three credentials are
    [None] when the variable is unset. *)
Record MailConfig : Type := {
  smtp_server : string;
  smtp_port : Z;
  sender_email : option string;
  sender_password : option string;
  recipient_email : option string
}.

(** [config.get(field)] for the text-valued keys. *)
Definition config_get (config : MailConfig) (field : string) : option string :=
  if bool_decide (field = "sender_email") then sender_email config
  else if bool_decide (field = "sender_password") then sender_password config
  else if bool_decide (field = "recipient_email") then recipient_email config
  else if bool_decide (field = "smtp_server") then Some (smtp_server config)
  else None.

(** A message handed to the mail server by [sendmail]. *)
Record Mail : Type := {
  mail_host : string;
  mail_port : Z;
  mail_user : option string;
  mail_password : option string;
  mail_from : option string;
  mail_to : option string;
  mail_subject : string;
  mail_html : string
}.

(** The body of a response: the dictionary given to [json.dumps], or the
    error page of the base class. *)
Inductive Body : Type :=
  | Json (success : bool) (message : string)
  | ErrorPage (explain : string).

Record Response : Type := {
  status : Z;
  headers : list (string * string);
  body : Body
}.

Inductive log_record : Type :=
  | LogInfo (msg : string)
  | LogError (msg : string)
  | LogException (msg : string) (e : exn).

(** ** The outside world *)

Inductive fs_op : Type :=
  | FsOpen
  | FsWrite (k : nat)
  | FsClose.

Inductive mail_op : Type :=
  | MimeCompose
  | MimeAttach
  | SslContext
  | SmtpConnect
  | SmtpStartTls
  | SmtpLogin
  | MimeAsString
  | SmtpSendmail
  | SmtpQuit.

(** What the environment does during one request: the process environment,
    the clock, and which file and mail operations raise. *)
Record World : Type := {
  environ : gmap string string;
  now : datetime;
  fs_fault : fs_op → option exn;
  mail_fault : mail_op → option exn
}.

(** One HTTP request: path, header fields (by their canonical names), the
    bytes the client sends before closing its side, and whether a read of a
    given size raises (socket error, time-out, a size too large to
    allocate). *)
Record Request : Type := {
  path : string;
  req_headers : gmap string string;
  rfile : list Byte.byte;
  read_fault : Z → option exn
}.

(** Everything the handler can change. *)
Record State : Type := {
  log_file : option string;   (** contents of form_submissions.log *)
  log_handle : bool;          (** a handle on the log file is open *)
  outbox : list Mail;         (** messages accepted by the mail server *)
  wire : list Response;       (** responses written to the client *)
  diag : list log_record      (** records of the module logger *)
}.

Definition set_log_file (f : option string) (h : bool) (st : State) : State :=
  {| log_file := f; log_handle := h; outbox := outbox st; wire := wire st;
     diag := diag st |}.
Definition add_mail (m : Mail) (st : State) : State :=
  {| log_file := log_file st; log_handle := log_handle st;
     outbox := outbox st ++ [m]; wire := wire st; diag := diag st |}.
Definition add_response (r : Response) (st : State) : State :=
  {| log_file := log_file st; log_handle := log_handle st;
     outbox := outbox st; wire := wire st ++ [r]; diag := diag st |}.
Definition add_diag (r : log_record) (st : State) : State :=
  {| log_file := log_file st; log_handle := log_handle st;
     outbox := outbox st; wire := wire st; diag := diag st ++ [r] |}.

(** ** Computations with state and exceptions *)

Definition M (A : Type) : Type := State → result A * State.

Definition ret {A} (a : A) : M A := λ st, (Ok a, st).

Definition bind {A B} (m : M A) (k : A → M B) : M B := λ st,
  match m st with
  | (Ok a, st') => k a st'
  | (Raise e, st') => (Raise e, st')
  end.

Definition lift {A} (r : result A) : M A := λ st, (r, st).

(** [try: body / except Exception as e: handler(e)] *)
Definition try_except {A} (body : M A) (handler : exn → M A) : M A := λ st,
  match body st with
  | (Ok a, st') => (Ok a, st')
  | (Raise e, st') => handler e st'
  end.

(** [with ...: body], where [leave] is the [__exit__] of the context
    manager: it runs on both ways out, and an exception of its own replaces
    the one of the body. *)
Definition with_exit {A} (body : M A) (leave : M unit) : M A := λ st,
  match body st with
  | (r, st') =>
      match leave st' with
      | (Ok _, st'') => (r, st'')
      | (Raise e, st'') => (Raise e, st'')
      end
  end.

Notation "x <- m ;; k" := (bind m (λ x, k))
  (at level 100, m at next level, right associativity).
Notation "m ;; k" := (bind m (λ _, k))
  (at level 100, right associativity).

Definition logger_info (msg : string) : M unit := λ st,
  (Ok tt, add_diag (LogInfo msg) st).
Definition logger_error (msg : string) : M unit := λ st,
  (Ok tt, add_diag (LogError msg) st).
Definition logger_exception (msg : string) (e : exn) : M unit := λ st,
  (Ok tt, add_diag (LogException msg e) st).

(** [d[key]] *)
Definition getitem (d : gmap string string) (key : string) : result string :=
  match d !! key with
  | Some v => Ok v
  | None => Raise KeyError
  end.

(** [d.get(key, dflt)] *)
Definition get_default (d : gmap string string) (key dflt : string) : string :=
  default dflt (d !! key).

(** ** Configuration loader *)

Definition _load_email_config (w : World) : M (option MailConfig) :=
  port <- lift (py_int (Some (get_default (environ w) "SMTP_PORT" "587"))) ;;
  let config :=
    {| smtp_server := get_default (environ w) "SMTP_SERVER" "smtp.gmail.com";
       smtp_port := port;
       sender_email := environ w !! "SENDER_EMAIL";
       sender_password := environ w !! "SENDER_PASSWORD";
       recipient_email := environ w !! "RECIPIENT_EMAIL" |} in
  let required_fields := ["sender_email"; "sender_password"; "recipient_email"] in
  let missing_fields :=
    filter (λ field, falsy (config_get config field)) required_fields in
  match missing_fields with
  | _ :: _ =>
      logger_error ("Missing required environment variables: " +:+
                    join ", " missing_fields) ;;
      ret None
  | [] => ret (Some config)
  end.

(** ** Responses *)

(** The headers the handler sends itself: two by the response method, three
    more by the overridden [end_headers]. *)
Definition cors_headers : list (string * string) :=
  [("Access-Control-Allow-Origin", "*");
   ("Access-Control-Allow-Methods", "GET, POST, OPTIONS");
   ("Access-Control-Allow-Headers", "Content-Type")].

Definition json_headers : list (string * string) :=
  [("Content-type", "application/json");
   ("Access-Control-Allow-Origin", "*")] ++ cors_headers.

Definition success_response (message : string) : Response :=
  {| status := 200; headers := json_headers; body := Json true message |}.

Definition error_response (message : string) : Response :=
  {| status := 400; headers := json_headers; body := Json false message |}.

Definition _send_success_response (message : string) : M unit := λ st,
  (Ok tt, add_response (success_response message) st).

Definition _send_error_response (message : string) : M unit := λ st,
  (Ok tt, add_response (error_response message) st).

(** [self.send_error(code, explain)] of the base class. *)
Definition send_error (code : Z) (explain : string) : M unit := λ st,
  (Ok tt, add_response {| status := code; headers := cors_headers;
                          body := ErrorPage explain |} st).

Definition msg_sent : string :=
  "Thank you! Your message has been sent successfully.".
Definition msg_received : string :=
  "Thank you! Your message has been received. We'll get back to you soon.".
Definition msg_send_failed : string :=
  "Failed to send email. Please try again or contact us directly.".
Definition msg_error : string := "An error occurred. Please try again.".

(** ** Log variant *)

(** [open(log_file, 'a')]: the file is created when it does not exist. *)
Definition open_append (w : World) : M unit := λ st,
  match fs_fault w FsOpen with
  | Some e => (Raise e, st)
  | None => (Ok tt, set_log_file (Some (default "" (log_file st))) true st)
  end.

(** The [k]-th [f.write(text)] of the block. *)
Definition file_write (w : World) (k : nat) (text : string) : M unit := λ st,
  match fs_fault w (FsWrite k) with
  | Some e => (Raise e, st)
  | None =>
      (Ok tt, set_log_file (Some (default "" (log_file st) +:+ text))
                           (log_handle st) st)
  end.

(** Leaving the [with] block closes the handle, also when closing raises. *)
Definition file_close (w : World) : M unit := λ st,
  let st' := set_log_file (log_file st) false st in
  match fs_fault w FsClose with
  | Some e => (Raise e, st')
  | None => (Ok tt, st')
  end.

Definition _log_submission (w : World) (submission : gmap string string)
  : M unit :=
  open_append w ;;
  with_exit
    (file_write w 0 (LF +:+ repeat_str "=" 50 +:+ LF) ;;
     file_write w 1 ("Timestamp: " +:+ isoformat (now w) +:+ LF) ;;
     file_write w 2 ("Name: " +:+ get_default submission "name" "N/A" +:+ LF) ;;
     file_write w 3 ("Email: " +:+ get_default submission "email" "N/A" +:+ LF) ;;
     file_write w 4 ("Company: " +:+ get_default submission "company" "N/A" +:+ LF) ;;
     file_write w 5 ("Project Type: " +:+ get_default submission "project_type" "N/A" +:+ LF) ;;
     file_write w 6 ("Budget: " +:+ get_default submission "budget" "N/A" +:+ LF) ;;
     file_write w 7 ("Timeline: " +:+ get_default submission "timeline" "N/A" +:+ LF) ;;
     file_write w 8 ("Location: " +:+ get_default submission "location" "N/A" +:+ LF) ;;
     file_write w 9 ("Description: " +:+ get_default submission "description" "N/A" +:+ LF))
    (file_close w).

(** ** Mail variant *)

Definition _format_email_body (w : World) (submission : gmap string string)
  : string :=
  concat_str [
    LF;
    "        <html>" +:+ LF;
    "        <body style=" +:+ DQ +:+ "font-family: Arial, sans-serif; line-height: 1.6; color: #333;" +:+ DQ +:+ ">" +:+ LF;
    "            <h2 style=" +:+ DQ +:+ "color: #16a34a;" +:+ DQ +:+ ">New House of Agile Contact Form Submission</h2>" +:+ LF;
    LF;
    "            <div style=" +:+ DQ +:+ "background: #f8f9fa; padding: 20px; border-radius: 8px; margin: 20px 0;" +:+ DQ +:+ ">" +:+ LF;
    "                <h3 style=" +:+ DQ +:+ "color: #16a34a; margin-top: 0;" +:+ DQ +:+ ">Contact Information</h3>" +:+ LF;
    "                <p><strong>Name:</strong> " +:+ get_default submission "name" "N/A" +:+ "</p>" +:+ LF;
    "                <p><strong>Email:</strong> " +:+ get_default submission "email" "N/A" +:+ "</p>" +:+ LF;
    "                <p><strong>Company:</strong> " +:+ get_default submission "company" "N/A" +:+ "</p>" +:+ LF;
    "            </div>" +:+ LF;
    LF;
    "            <div style=" +:+ DQ +:+ "background: #f8f9fa; padding: 20px; border-radius: 8px; margin: 20px 0;" +:+ DQ +:+ ">" +:+ LF;
    "                <h3 style=" +:+ DQ +:+ "color: #16a34a; margin-top: 0;" +:+ DQ +:+ ">Project Details</h3>" +:+ LF;
    "                <p><strong>Project Type:</strong> " +:+ get_default submission "project_type" "N/A" +:+ "</p>" +:+ LF;
    "                <p><strong>Budget:</strong> " +:+ get_default submission "budget" "N/A" +:+ "</p>" +:+ LF;
    "                <p><strong>Timeline:</strong> " +:+ get_default submission "timeline" "N/A" +:+ "</p>" +:+ LF;
    "                <p><strong>Location:</strong> " +:+ get_default submission "location" "N/A" +:+ "</p>" +:+ LF;
    "            </div>" +:+ LF;
    LF;
    "            <div style=" +:+ DQ +:+ "background: #f8f9fa; padding: 20px; border-radius: 8px; margin: 20px 0;" +:+ DQ +:+ ">" +:+ LF;
    "                <h3 style=" +:+ DQ +:+ "color: #16a34a; margin-top: 0;" +:+ DQ +:+ ">Project Description</h3>" +:+ LF;
    "                <p>" +:+ replace (BSL +:+ "n") "<br>" (get_default submission "description" "N/A") +:+ "</p>" +:+ LF;
    "            </div>" +:+ LF;
    LF;
    "            <div style=" +:+ DQ +:+ "margin-top: 30px; padding-top: 20px; border-top: 1px solid #dee2e6;" +:+ DQ +:+ ">" +:+ LF;
    "                <p style=" +:+ DQ +:+ "color: #666; font-size: 12px;" +:+ DQ +:+ ">" +:+ LF;
    "                    Submitted on " +:+ strftime_utc (now w) +:+ LF;
    "                </p>" +:+ LF;
    "            </div>" +:+ LF;
    "        </body>" +:+ LF;
    "        </html>" +:+ LF;
    "        "
  ].

Arguments _format_email_body : simpl never.

(** A step of the mail library that changes nothing here but may raise. *)
Definition mail_step (w : World) (op : mail_op) : M unit := λ st,
  match mail_fault w op with
  | Some e => (Raise e, st)
  | None => (Ok tt, st)
  end.

(** [server.sendmail(...)]: the server accepts the message, or raises. *)
Definition smtp_sendmail (w : World) (m : Mail) : M unit := λ st,
  match mail_fault w SmtpSendmail with
  | Some e => (Raise e, st)
  | None => (Ok tt, add_mail m st)
  end.

Definition _send_notification_email (config : MailConfig) (w : World)
    (submission : gmap string string) : M bool :=
  try_except
    (mail_step w MimeCompose ;;
     name <- lift (getitem submission "name") ;;
     let subject := "New Contact Form Submission from " +:+ name in
     let body := _format_email_body w submission in
     mail_step w MimeAttach ;;
     mail_step w SslContext ;;
     mail_step w SmtpConnect ;;
     with_exit
       (mail_step w SmtpStartTls ;;
        mail_step w SmtpLogin ;;
        mail_step w MimeAsString ;;
        smtp_sendmail w
          {| mail_host := smtp_server config; mail_port := smtp_port config;
             mail_user := sender_email config;
             mail_password := sender_password config;
             mail_from := sender_email config;
             mail_to := recipient_email config;
             mail_subject := subject; mail_html := body |})
       (mail_step w SmtpQuit) ;;
     email <- lift (getitem submission "email") ;;
     logger_info ("Email sent successfully for submission from " +:+ email) ;;
     ret true)
    (λ e, logger_exception "Failed to send email: " e ;; ret false).

(** ** Request handler *)

Definition required_fields : list string :=
  ["name"; "email"; "project_type"; "budget"; "description"].

(** The validation step: the required fields whose value is absent or
    false. *)
Definition missing_fields (submission : gmap string string) : list string :=
  filter (λ field, falsy (submission !! field)) required_fields.

(** The loop that keeps the first value of every key. *)
Definition extract_fields (form_data : list (string * list string))
  : gmap string string :=
  foldl (λ submission kv,
           <[kv.1 := match kv.2 with v :: _ => v | [] => "" end]> submission)
        ∅ form_data.

(** [self.rfile.read(n)] on the buffered reader of the connection: a size
    below -1 is refused, -1 reads to the end, another size reads that many
    bytes or fewer if the client stops before. *)
Definition read_bytes (req : Request) (n : Z) : result (list Byte.byte) :=
  if bool_decide (n < -1) then Raise ValueError
  else match read_fault req n with
       | Some e => Raise e
       | None =>
           Ok (if bool_decide (n = -1) then rfile req
               else take (Z.to_nat n) (rfile req))
       end.

Definition rfile_read (req : Request) (n : Z) : M (list Byte.byte) :=
  lift (read_bytes req n).

Section Handler.

(** [bytes.decode('utf-8')] and [urllib.parse.parse_qs], whose result is
    listed in the order of [dict.items()]. *)
Variable decode_utf8 : list Byte.byte → result string.
Variable parse_qs : string → list (string * list string).

(** First half of the [try] block: the body of the request is read and
    decoded into the submission. *)
Definition read_submission (req : Request) : M (gmap string string) :=
  content_length <- lift (py_int (req_headers req !! "Content-Length")) ;;
  post_data <- rfile_read req content_length ;;
  text <- lift (decode_utf8 post_data) ;;
  let form_data := parse_qs text in
  ret (extract_fields form_data).

(** Second half of the [try] block: validation, then one of the two
    dispatch variants, then the response. *)
Definition validate_and_dispatch (email_config : option MailConfig)
    (w : World) (submission : gmap string string) : M unit :=
  logger_info ("Received form submission from: " +:+
               get_default submission "email" "unknown") ;;
  match missing_fields submission with
  | _ :: _ =>
      _send_error_response ("Missing required fields: " +:+
                            join ", " (missing_fields submission))
  | [] =>
      match email_config with
      | Some config =>
          email_sent <- _send_notification_email config w submission ;;
          if email_sent : bool
          then _send_success_response msg_sent
          else _send_error_response msg_send_failed
      | None =>
          _log_submission w submission ;;
          _send_success_response msg_received
      end
  end.

(** The statements inside [try:]. *)
Definition form_submission_body (email_config : option MailConfig)
    (w : World) (req : Request) : M unit :=
  submission <- read_submission req ;;
  validate_and_dispatch email_config w submission.

Definition _handle_form_submission (email_config : option MailConfig)
    (w : World) (req : Request) : M unit :=
  try_except (form_submission_body email_config w req)
    (λ e, logger_exception "Error handling form submission: " e ;;
          _send_error_response msg_error).

Definition do_POST (email_config : option MailConfig) (w : World)
    (req : Request) : M unit :=
  if bool_decide (path req = "/submit-form")
  then _handle_form_submission email_config w req
  else send_error 404 "Not Found".

(** [__init__] for a POST request: the configuration is loaded, then the
    base class handles the request. *)
Definition handle_post (w : World) (req : Request) : M unit :=
  email_config <- _load_email_config w ;;
  do_POST email_config w req.

(** The submission a request decodes to, or the exception that decoding
    raises, as a value. *)
Definition received (req : Request) : result (gmap string string) :=
  match py_int (req_headers req !! "Content-Length") with
  | Raise e => Raise e
  | Ok n =>
      match read_bytes req n with
      | Raise e => Raise e
      | Ok post_data =>
          match decode_utf8 post_data with
          | Raise e => Raise e
          | Ok text => Ok (extract_fields (parse_qs text))
          end
      end
  end.

End Handler.

(** ** The operations each dispatch variant performs *)

Definition log_ops : list fs_op :=
  FsOpen :: map FsWrite (seq 0 10) ++ [FsClose].

Definition mail_ops : list mail_op :=
  [MimeCompose; MimeAttach; SslContext; SmtpConnect; SmtpStartTls; SmtpLogin;
   MimeAsString; SmtpSendmail; SmtpQuit].

(** No file operation of the log variant raises. *)
Definition fs_ok (w : World) : Prop :=
  Forall (λ op, fs_fault w op = None) log_ops.

(** No step of the mail variant raises. *)
Definition mail_ok (w : World) : Prop :=
  Forall (λ op, mail_fault w op = None) mail_ops.

(** The block of text that [_log_submission] writes. *)
Definition log_block (w : World) (submission : gmap string string) : string :=
  concat_str [
    LF +:+ repeat_str "=" 50 +:+ LF;
    "Timestamp: " +:+ isoformat (now w) +:+ LF;
    "Name: " +:+ get_default submission "name" "N/A" +:+ LF;
    "Email: " +:+ get_default submission "email" "N/A" +:+ LF;
    "Company: " +:+ get_default submission "company" "N/A" +:+ LF;
    "Project Type: " +:+ get_default submission "project_type" "N/A" +:+ LF;
    "Budget: " +:+ get_default submission "budget" "N/A" +:+ LF;
    "Timeline: " +:+ get_default submission "timeline" "N/A" +:+ LF;
    "Location: " +:+ get_default submission "location" "N/A" +:+ LF;
    "Description: " +:+ get_default submission "description" "N/A" +:+ LF
  ].

(** The message that the mail variant hands to the server. *)
Definition notification (config : MailConfig) (w : World)
    (submission : gmap string string) : Mail :=
  {| mail_host := smtp_server config; mail_port := smtp_port config;
     mail_user := sender_email config;
     mail_password := sender_password config;
     mail_from := sender_email config;
     mail_to := recipient_email config;
     mail_subject := "New Contact Form Submission from " +:+
                     get_default submission "name" "";
     mail_html := _format_email_body w submission |}.

(** The [except] clause of [_handle_form_submission]. *)
Definition on_error (e : exn) : M unit :=
  logger_exception "Error handling form submission: " e ;;
  _send_error_response msg_error.

(** The record that the handler logs once the submission is decoded. *)
Definition received_info (submission : gmap string string) : log_record :=
  LogInfo ("Received form submission from: " +:+
           get_default submission "email" "unknown").

(** The success flag of a JSON response. *)
Definition json_success (r : Response) : option bool :=
  match body r with
  | Json b _ => Some b
  | ErrorPage _ => None
  end.

(** [c in s] for a character [c] *)
Fixpoint has_char (c : ascii) (s : string) : bool :=
  match s with
  | EmptyString => false
  | String a s' => bool_decide (a = c) || has_char c s'
  end.

(** Some operation of the pipeline raises on this request: the decoding of
    the request, or, for a submission with the five required fields, the
    dispatch variant that the configuration selects. *)
Definition exception_raised (decode_utf8 : list Byte.byte → result string)
    (parse_qs : string → list (string * list string))
    (email_config : option MailConfig) (w : World) (req : Request) : Prop :=
  (∃ e, received decode_utf8 parse_qs req = Raise e) ∨
  (∃ submission,
     received decode_utf8 parse_qs req = Ok submission ∧
     missing_fields submission = [] ∧
     ((email_config = None ∧ ¬ fs_ok w) ∨
      (is_Some email_config ∧ ¬ mail_ok w))).

(** ** Trimmed emptiness *)

(** [c.isspace()] for the code points below U+0100. *)
Definition py_isspace (c : ascii) : bool :=
  let n := nat_of_ascii c in
  bool_decide ((9 <= n <= 13) \/ (28 <= n <= 32) \/ n = 133 \/ n = 160)%nat.

(** [s.strip() == ''] *)
Fixpoint is_blank (s : string) : bool :=
  match s with
  | EmptyString => true
  | String c s' => py_isspace c && is_blank s'
  end.

(** Missing by trimmed emptiness: the key is absent, or its value is empty
    once the white space around it is removed. *)
Definition trimmed_missing (submission : gmap string string) (field : string)
  : bool :=
  match submission !! field with
  | None => true
  | Some v => is_blank v
  end.

(** ** Requests written in ASCII

    Instances of the two library functions for requests whose bytes, and
    whose percent escapes, are all below 0x80.  On such requests they agree
    with [bytes.decode('utf-8')] and [urllib.parse.parse_qs]; they are used
    for the concrete requests below only. *)

Definition decode_ascii (data : list Byte.byte) : result string :=
  if forallb (λ b, Byte.to_nat b <? 128)%nat data
  then Ok (String.string_of_list_byte data)
  else Raise UnicodeDecodeError.

(** [s.split(sep)] for a one-character separator *)
Fixpoint split_on (sep : ascii) (s : string) : list string :=
  match s with
  | EmptyString => [""]
  | String c s' =>
      if bool_decide (c = sep) then "" :: split_on sep s'
      else match split_on sep s' with
           | h :: t => String c h :: t
           | [] => [String c ""]
           end
  end.

(** [s.split('=', 1)] when it has two parts *)
Fixpoint partition_eq (s : string) : option (string * string) :=
  match s with
  | EmptyString => None
  | String c s' =>
      if bool_decide (c = ascii_of_nat 61) then Some ("", s')
      else match partition_eq s' with
           | Some (a, b) => Some (String c a, b)
           | None => None
           end
  end.

(** [s.replace('+', ' ')] *)
Fixpoint plus_to_space (s : string) : string :=
  match s with
  | EmptyString => ""
  | String c s' =>
      String (if bool_decide (c = ascii_of_nat 43) then ascii_of_nat 32 else c)
             (plus_to_space s')
  end.

Definition hex_value (c : ascii) : option nat :=
  let n := nat_of_ascii c in
  if bool_decide (48 <= n <= 57)%nat then Some (n - 48)%nat
  else if bool_decide (65 <= n <= 70)%nat then Some (n - 55)%nat
  else if bool_decide (97 <= n <= 102)%nat then Some (n - 87)%nat
  else None.

(** [unquote(s)]; an escape that is not two hexadecimal digits stays as it
    is, and so does (here only) an escape of 0x80 or more. *)
Fixpoint unquote (s : string) : string :=
  match s with
  | EmptyString => ""
  | String c s' =>
      if bool_decide (c = ascii_of_nat 37) then
        match s' with
        | String h (String l rest) =>
            match hex_value h, hex_value l with
            | Some a, Some b =>
                if bool_decide (16 * a + b < 128)%nat
                then String (ascii_of_nat (16 * a + b)) (unquote rest)
                else String c (unquote s')
            | _, _ => String c (unquote s')
            end
        | _ => String c (unquote s')
        end
      else String c (unquote s')
  end.

(** [parse_qsl(qs)]: pairs without an equals sign or with a blank value are
    dropped. *)
Definition parse_qsl (qs : string) : list (string * string) :=
  omap (λ name_value,
          match partition_eq name_value with
          | Some (name, value) =>
              if bool_decide (value = "") then None
              else Some (unquote (plus_to_space name),
                         unquote (plus_to_space value))
          | None => None
          end)
       (split_on (ascii_of_nat 38) qs).

Fixpoint add_value (name value : string) (d : list (string * list string))
  : list (string * list string) :=
  match d with
  | [] => [(name, [value])]
  | (k, vs) :: d' =>
      if bool_decide (k = name) then (k, vs ++ [value]) :: d'
      else (k, vs) :: add_value name value d'
  end.

Definition parse_qs_ascii (qs : string) : list (string * list string) :=
  foldl (λ d nv, add_value nv.1 nv.2 d) [] (parse_qsl qs).

(** ** Concrete worlds and requests *)

Definition noon : datetime :=
  {| year := 2024; month := 1; day := 2; hour := 12; minute := 0;
     second := 5; microsecond := 0 |}.

Definition quiet_world : World :=
  {| environ := ∅; now := noon; fs_fault := λ _, None;
     mail_fault := λ _, None |}.

(** The log file cannot be opened. *)
Definition world_log_refused : World :=
  {| environ := ∅; now := noon;
     fs_fault := λ op, match op with FsOpen => Some OSError | _ => None end;
     mail_fault := λ _, None |}.

(** The mail server rejects the login. *)
Definition world_login_refused : World :=
  {| environ := ∅; now := noon; fs_fault := λ _, None;
     mail_fault := λ op,
       match op with SmtpLogin => Some SMTPException | _ => None end |}.

(** [SMTP_PORT] is set to a word. *)
Definition world_bad_port : World :=
  {| environ := {[ "SMTP_PORT" := "abc" ]}; now := noon;
     fs_fault := λ _, None; mail_fault := λ _, None |}.

Definition config_example : MailConfig :=
  {| smtp_server := "smtp.gmail.com"; smtp_port := 587;
     sender_email := Some "noreply@houseofagile.com";
     sender_password := Some "abcd efgh ijkl mnop";
     recipient_email := Some "jc@houseofagile.com" |}.

Definition initial_state : State :=
  {| log_file := None; log_handle := false; outbox := []; wire := [];
     diag := [] |}.

(** A POST to the form endpoint with the given body and its length. *)
Definition post (form : string) : Request :=
  {| path := "/submit-form";
     req_headers := {[ "Content-Length" := decimal (String.length form) ]};
     rfile := String.list_byte_of_string form;
     read_fault := λ _, None |}.

Definition form_ada : string :=
  "name=Ada&email=ada%40x.com&project_type=web&budget=%2410k&description=Need+a+site.%0AFast+turnaround.".

Definition submission_ada : gmap string string :=
  {[ "name" := "Ada"; "email" := "ada@x.com"; "project_type" := "web";
     "budget" := "$10k";
     "description" := "Need a site." +:+ LF +:+ "Fast turnaround." ]}.

(** The same form with a name of three spaces. *)
Definition form_blank_name : string :=
  "name=+++&email=ada%40x.com&project_type=web&budget=%2410k&description=Need+a+site.".

(** The same form without budget and email. *)
Definition form_partial : string :=
  "name=Ada&project_type=web&description=Need+a+site.".

(** ** Start-up and the fields the handler reads *)

(** The line that [__main__] prints when its argument is not a number. *)
Inductive notice : Type :=
  | InvalidPort.

(** The port chosen by the [__main__] block of [email_server.py] and of
    [server.py] from [sys.argv], with what it prints: the default is kept
    when there is no argument, [except ValueError] restores it when the
    argument is not a number. *)
Definition main_port (argv : list string) : result (Z * list notice) :=
  let port := 8000 in
  if bool_decide (1 < length argv)%nat then
    match py_int (argv !! 1%nat) with
    | Ok port => Ok (port, [])
    | Raise ValueError => Ok (port, [InvalidPort])
    | Raise e => Raise e
    end
  else Ok (port, []).

(** The keys of a submission that the handler reads anywhere. *)
Definition known_fields : list string :=
  ["name"; "email"; "company"; "project_type"; "budget"; "timeline";
   "location"; "description"].

(** The steps of the mail variant up to and including the hand-over of the
    message. *)
Definition send_ops : list mail_op :=
  [MimeCompose; MimeAttach; SslContext; SmtpConnect; SmtpStartTls; SmtpLogin;
   MimeAsString; SmtpSendmail].

(** The configuration keys whose environment variable is unset or empty, in
    the order of the loader. *)
Definition missing_credentials (w : World) : list string :=
  (if falsy (environ w !! "SENDER_EMAIL") then ["sender_email"] else []) ++
  (if falsy (environ w !! "SENDER_PASSWORD") then ["sender_password"] else []) ++
  (if falsy (environ w !! "RECIPIENT_EMAIL") then ["recipient_email"] else []).

(** The mail server accepts the message and then fails the QUIT. *)
Definition world_quit_refused : World :=
  {| environ := ∅; now := noon; fs_fault := λ _, None;
     mail_fault := λ op,
       match op with SmtpQuit => Some SMTPException | _ => None end |}.

(** An environment with the three credentials and a port. *)
Definition world_configured : World :=
  {| environ := {[ "SENDER_EMAIL" := "noreply@houseofagile.com";
                   "SENDER_PASSWORD" := "abcd efgh ijkl mnop";
                   "RECIPIENT_EMAIL" := "jc@houseofagile.com";
                   "SMTP_PORT" := "2525" ]};
     now := noon; fs_fault := λ _, None; mail_fault := λ _, None |}.

(** A POST with a given value of the length header. *)
Definition post_with_length (len form : string) : Request :=
  {| path := "/submit-form";
     req_headers := {[ "Content-Length" := len ]};
     rfile := String.list_byte_of_string form;
     read_fault := λ _, None |}.

(** The configuration that the loader builds in [world_configured]. *)
Definition config_configured : MailConfig :=
  {| smtp_server := "smtp.gmail.com"; smtp_port := 2525;
     sender_email := Some "noreply@houseofagile.com";
     sender_password := Some "abcd efgh ijkl mnop";
     recipient_email := Some "jc@houseofagile.com" |}.

(** The page that [do_POST] answers on another path. *)
Definition not_found_response : Response :=
  {| status := 404; headers := cors_headers; body := ErrorPage "Not Found" |}.

(** [value[0] if value else ''] *)
Definition first_value (value : list string) : string :=
  match value with
  | v :: _ => v
  | [] => ""
  end.

(** The labelled rows of the mail body, with the key each one shows. *)
Definition body_rows : list (string * string) :=
  [("Name", "name"); ("Email", "email"); ("Company", "company");
   ("Project Type", "project_type"); ("Budget", "budget");
   ("Timeline", "timeline"); ("Location", "location")].

(** * Properties *)

(** ** Strings *)

Lemma append_assoc (a b c : string) : (a +:+ b) +:+ c = a +:+ (b +:+ c).
Proof.
  induction a as [|x a IH]; [reflexivity|].
  change (String x ((a +:+ b) +:+ c) = String x (a +:+ b +:+ c)).
  by rewrite IH.
Qed.

Lemma append_empty_r (a : string) : a +:+ "" = a.
Proof.
  induction a as [|x a IH]; [reflexivity|].
  change (String x (a +:+ "") = String x a). by rewrite IH.
Qed.

(** ** The log variant *)

Ltac step_fs w :=
  match goal with
  | |- context [fs_fault w ?op] =>
      let E := fresh "E" in destruct (fs_fault w op) eqn:E; cbn
  end.

Ltac unfold_log :=
  unfold _log_submission, bind, with_exit, open_append, file_write,
    file_close; cbn.

Lemma log_submission_frame w submission st :
  let st' := (_log_submission w submission st).2 in
  wire st' = wire st ∧ outbox st' = outbox st ∧ diag st' = diag st.
Proof.
  unfold_log. repeat step_fs w; auto.
Qed.

Lemma log_submission_ok w submission st :
  fs_ok w →
  _log_submission w submission st =
  (Ok tt, set_log_file
            (Some (default "" (log_file st) +:+ log_block w submission))
            false st).
Proof.
  intros H. unfold fs_ok, log_ops in H. cbn in H.
  repeat (apply Forall_cons in H as [? H]).
  unfold_log. repeat step_fs w; try congruence.
  unfold set_log_file, log_block. cbn.
  rewrite !append_assoc, append_empty_r. reflexivity.
Qed.

Lemma log_submission_fail w submission st :
  ¬ fs_ok w → ∃ e, (_log_submission w submission st).1 = Raise e.
Proof.
  intros H. unfold_log. repeat step_fs w; eauto.
  destruct H. unfold fs_ok, log_ops. cbn. repeat constructor; assumption.
Qed.

(** ** The mail variant *)

Ltac step_mail w :=
  match goal with
  | |- context [mail_fault w ?op] =>
      let E := fresh "E" in destruct (mail_fault w op) eqn:E; cbn
  end.

Ltac unfold_mail :=
  unfold _send_notification_email, try_except, bind, with_exit, mail_step,
    smtp_sendmail, lift, getitem, logger_info, logger_exception, ret; cbn.

Lemma send_notification_frame config w submission st :
  let st' := (_send_notification_email config w submission st).2 in
  wire st' = wire st ∧ log_file st' = log_file st ∧
  log_handle st' = log_handle st.
Proof.
  unfold_mail.
  destruct (submission !! "name"), (submission !! "email"); cbn;
    repeat step_mail w; auto.
Qed.

Lemma send_notification_total config w submission st :
  ∃ b, (_send_notification_email config w submission st).1 = Ok b.
Proof.
  unfold_mail.
  destruct (submission !! "name"), (submission !! "email"); cbn;
    repeat step_mail w; eauto.
Qed.

Lemma send_notification_ok config w submission st name email :
  submission !! "name" = Some name →
  submission !! "email" = Some email →
  mail_ok w →
  _send_notification_email config w submission st =
  (Ok true,
   add_diag (LogInfo ("Email sent successfully for submission from " +:+ email))
     (add_mail (notification config w submission) st)).
Proof.
  intros Hn He H. unfold mail_ok, mail_ops in H.
  repeat (apply Forall_cons in H as [? H]).
  unfold_mail. rewrite Hn, He. cbn. repeat step_mail w; try congruence.
  unfold notification, get_default. rewrite Hn. reflexivity.
Qed.

Lemma send_notification_fail config w submission st :
  ¬ mail_ok w →
  (_send_notification_email config w submission st).1 = Ok false.
Proof.
  intros H. unfold_mail.
  destruct (submission !! "name"), (submission !! "email"); cbn;
    repeat step_mail w; auto.
  all: destruct H; unfold mail_ok, mail_ops; repeat constructor; assumption.
Qed.

(** ** Sanity checks of the library models *)

Example int_587 : int_of_str "587" = Some 587. Proof. reflexivity. Qed.
Example int_spaces : int_of_str " -1_0 " = Some (-10). Proof. reflexivity. Qed.
Example int_double_underscore : int_of_str "1__0" = None. Proof. reflexivity. Qed.
Example int_leading_underscore : int_of_str "_1" = None. Proof. reflexivity. Qed.
Example int_trailing_underscore : int_of_str "1_" = None. Proof. reflexivity. Qed.
Example int_word : int_of_str "abc" = None. Proof. reflexivity. Qed.
Example int_empty : int_of_str "" = None. Proof. reflexivity. Qed.
Example int_sign_space : int_of_str "+ 1" = None. Proof. reflexivity. Qed.
Example replace_twice : replace "ab" "X" "aabcabab" = "aXcXX". Proof. reflexivity. Qed.
Example replace_no_overlap : replace "aa" "X" "aaa" = "Xa". Proof. reflexivity. Qed.
Example isoformat_fraction :
  isoformat {| year := 2024; month := 1; day := 2; hour := 3; minute := 4;
               second := 5; microsecond := 6 |} = "2024-01-02T03:04:05.000006".
Proof. reflexivity. Qed.
Example isoformat_whole : isoformat noon = "2024-01-02T12:00:05".
Proof. reflexivity. Qed.
Example parse_repeated_key :
  parse_qs_ascii "name=+++&email=&x&description=a%0Ab&name=z" =
  [("name", ["   "; "z"]); ("description", ["a" +:+ LF +:+ "b"])].
Proof. reflexivity. Qed.
Example extract_ada :
  extract_fields (parse_qs_ascii form_ada) = submission_ada.
Proof. vm_compute. reflexivity. Qed.

(** ** Validation *)

Lemma falsy_spec (x : option string) : falsy x ↔ x = None ∨ x = Some "".
Proof.
  destruct x as [s|]; simpl.
  - rewrite bool_decide_spec. split; [intros ->; by right|].
    intros [?|?]; congruence.
  - split; [by left | done].
Qed.

Lemma missing_fields_spec submission field :
  field ∈ missing_fields submission ↔
  field ∈ required_fields ∧
  (submission !! field = None ∨ submission !! field = Some "").
Proof.
  unfold missing_fields. rewrite list_elem_of_filter, falsy_spec. tauto.
Qed.

Lemma valid_present submission field :
  missing_fields submission = [] → field ∈ required_fields →
  ∃ v, submission !! field = Some v ∧ v ≠ "".
Proof.
  intros Hm Hf.
  destruct (submission !! field) as [v|] eqn:E.
  - exists v. split; [done|]. intros ->.
    assert (field ∈ missing_fields submission) as Hin
      by (apply missing_fields_spec; auto).
    rewrite Hm in Hin. by apply elem_of_nil in Hin.
  - assert (field ∈ missing_fields submission) as Hin
      by (apply missing_fields_spec; auto).
    rewrite Hm in Hin. by apply elem_of_nil in Hin.
Qed.

(** ** The handler *)

Section Pipeline.

Variable decode_utf8 : list Byte.byte → result string.
Variable parse_qs : string → list (string * list string).

Local Abbreviation recv := (received decode_utf8 parse_qs).
Local Abbreviation handle := (_handle_form_submission decode_utf8 parse_qs).

Lemma read_submission_received req st :
  read_submission decode_utf8 parse_qs req st = (recv req, st).
Proof.
  unfold read_submission, received, rfile_read, bind, lift, ret.
  destruct (py_int _) as [n|]; [|reflexivity].
  destruct (read_bytes req n) as [data|]; [|reflexivity].
  destruct (decode_utf8 data); reflexivity.
Qed.

Lemma handle_received_ok email_config w req st submission :
  recv req = Ok submission →
  handle email_config w req st =
  try_except (validate_and_dispatch email_config w submission) on_error st.
Proof.
  intros H. unfold _handle_form_submission, form_submission_body,
    try_except, bind at 1.
  by rewrite read_submission_received, H.
Qed.

Lemma handle_received_raise email_config w req st e :
  recv req = Raise e →
  handle email_config w req st =
  (Ok tt, add_response (error_response msg_error)
            (add_diag (LogException "Error handling form submission: " e) st)).
Proof.
  intros H. unfold _handle_form_submission, form_submission_body,
    try_except, bind at 1.
  by rewrite read_submission_received, H.
Qed.

Lemma dispatch_missing email_config w submission st :
  missing_fields submission ≠ [] →
  try_except (validate_and_dispatch email_config w submission) on_error st =
  (Ok tt,
   add_response
     (error_response ("Missing required fields: " +:+
                      join ", " (missing_fields submission)))
     (add_diag (received_info submission) st)).
Proof.
  intros H. unfold try_except, validate_and_dispatch, bind, logger_info.
  by destruct (missing_fields submission).
Qed.

Lemma dispatch_log_ok w submission st :
  missing_fields submission = [] → fs_ok w →
  try_except (validate_and_dispatch None w submission) on_error st =
  (Ok tt,
   add_response (success_response msg_received)
     (set_log_file
        (Some (default "" (log_file st) +:+ log_block w submission)) false
        (add_diag (received_info submission) st))).
Proof.
  intros Hm Hfs. unfold try_except, validate_and_dispatch, bind, logger_info.
  rewrite Hm. by rewrite log_submission_ok.
Qed.

Lemma dispatch_log_fail w submission st :
  missing_fields submission = [] → ¬ fs_ok w →
  let r := try_except (validate_and_dispatch None w submission) on_error st in
  r.1 = Ok tt ∧ wire r.2 = wire st ++ [error_response msg_error] ∧
  outbox r.2 = outbox st.
Proof.
  intros Hm Hfs. unfold try_except, validate_and_dispatch, bind, logger_info.
  rewrite Hm.
  pose proof (log_submission_fail w submission
                (add_diag (received_info submission) st) Hfs) as [e He].
  pose proof (log_submission_frame w submission
                (add_diag (received_info submission) st)) as (Hw & Ho & _).
  unfold received_info in *.
  destruct (_log_submission w submission _) as [[[]|e'] st']; simpl in *;
    [discriminate|].
  by rewrite Hw, Ho.
Qed.

Lemma dispatch_mail_ok config w submission st :
  missing_fields submission = [] → mail_ok w →
  let r := try_except (validate_and_dispatch (Some config) w submission)
             on_error st in
  r.1 = Ok tt ∧ wire r.2 = wire st ++ [success_response msg_sent] ∧
  outbox r.2 = outbox st ++ [notification config w submission] ∧
  log_file r.2 = log_file st.
Proof.
  intros Hm Hok.
  destruct (valid_present submission "name" Hm) as (name & Hn & _);
    [set_solver|].
  destruct (valid_present submission "email" Hm) as (email & He & _);
    [set_solver|].
  unfold try_except, validate_and_dispatch, bind, logger_info.
  rewrite Hm. by rewrite (send_notification_ok _ _ _ _ name email).
Qed.

Lemma dispatch_mail_fail config w submission st :
  missing_fields submission = [] → ¬ mail_ok w →
  let r := try_except (validate_and_dispatch (Some config) w submission)
             on_error st in
  r.1 = Ok tt ∧ wire r.2 = wire st ++ [error_response msg_send_failed] ∧
  log_file r.2 = log_file st.
Proof.
  intros Hm Hok. unfold try_except, validate_and_dispatch, bind, logger_info.
  rewrite Hm.
  pose proof (send_notification_fail config w submission
                (add_diag (received_info submission) st) Hok) as Hf.
  pose proof (send_notification_frame config w submission
                (add_diag (received_info submission) st)) as (Hw & Hl & _).
  unfold received_info in *.
  destruct (_send_notification_email config w submission _) as [[b|e'] st'];
    simpl in *; [|discriminate].
  injection Hf as ->. simpl. by rewrite Hw, Hl.
Qed.

(** ** Missing fields *)

(** C1. When a required field of the decoded submission is missing (absent
    or empty), the handler returns normally and answers 400 with the message
    [Missing required fields: ] followed by exactly the missing names, in
    the order name, email, project_type, budget, description, joined by a
    comma and a space.  The only other effect is the logger record of the
    reception: no mail step runs and the log file is not touched. *)
Theorem missing_fields_rejected email_config w req st submission :
  received decode_utf8 parse_qs req = Ok submission →
  (∃ field, field ∈ required_fields ∧
     (submission !! field = None ∨ submission !! field = Some "")) →
  ∃ st',
    _handle_form_submission decode_utf8 parse_qs email_config w req st =
      (Ok tt, st') ∧
    wire st' = wire st ++
      [error_response
         ("Missing required fields: " +:+
          join ", "
            (filter (λ field, submission !! field = None ∨
                              submission !! field = Some "")
               ["name"; "email"; "project_type"; "budget"; "description"]))] ∧
    outbox st' = outbox st ∧
    log_file st' = log_file st ∧
    log_handle st' = log_handle st ∧
    diag st' = diag st ++ [received_info submission].
Proof.
  intros Hr (field & Hf & Hmiss).
  assert (missing_fields submission ≠ []) as Hne.
  { intros E. assert (field ∈ missing_fields submission) as Hin
      by (by apply missing_fields_spec).
    rewrite E in Hin. by apply elem_of_nil in Hin. }
  rewrite (handle_received_ok _ _ _ _ _ Hr), (dispatch_missing _ _ _ _ Hne).
  eexists; split; [reflexivity|]. simpl. repeat split.
  do 5 f_equal. unfold missing_fields, required_fields.
  apply list_filter_iff. intros f. apply falsy_spec.
Qed.

(** ** One response for every request *)

Lemma on_error_total (body : M unit) st :
  (try_except body on_error st).1 = Ok tt.
Proof.
  unfold try_except, on_error, bind, logger_exception, _send_error_response.
  by destruct (body st) as [[[]|e] st'].
Qed.

Lemma dispatch_one_response email_config w submission st :
  let r := try_except (validate_and_dispatch email_config w submission)
             on_error st in
  ∃ resp, wire r.2 = wire st ++ [resp] ∧
          (∃ m, resp = success_response m ∨ resp = error_response m).
Proof.
  unfold try_except, validate_and_dispatch, bind, logger_info, on_error,
    logger_exception, _send_error_response, _send_success_response.
  destruct (missing_fields submission) as [|f l]; [|simpl; eauto].
  destruct email_config as [config|].
  - pose proof (send_notification_frame config w submission
                  (add_diag (received_info submission) st)) as (Hw & _).
    unfold received_info in *.
    destruct (_send_notification_email config w submission _)
      as [[[]|e] st']; simpl in *; rewrite Hw; eauto.
  - pose proof (log_submission_frame w submission
                  (add_diag (received_info submission) st)) as (Hw & _).
    unfold received_info in *.
    destruct (_log_submission w submission _) as [[[]|e] st']; simpl in *;
      rewrite Hw; eauto.
Qed.

Lemma handle_one_response email_config w req st :
  ∃ st' resp,
    handle email_config w req st = (Ok tt, st') ∧
    wire st' = wire st ++ [resp] ∧
    (∃ m, resp = success_response m ∨ resp = error_response m).
Proof.
  destruct (recv req) as [submission|e] eqn:Hr.
  - rewrite (handle_received_ok _ _ _ _ _ Hr).
    pose proof (on_error_total
                  (validate_and_dispatch email_config w submission) st) as Ht.
    destruct (dispatch_one_response email_config w submission st)
      as (resp & Hw & Hj).
    destruct (try_except _ on_error st) as [r st'] eqn:E.
    simpl in *. subst r. eauto.
  - rewrite (handle_received_raise _ _ _ _ _ Hr). do 2 eexists.
    split; [reflexivity|]. simpl. eauto.
Qed.

Lemma last_response (l : list Response) r1 r2 :
  l ++ [r1] = l ++ [r2] → r1 = r2.
Proof. intros H. apply app_inv_head in H. congruence. Qed.

Lemma mail_fault_not_ok w op e : mail_fault w op = Some e → ¬ mail_ok w.
Proof.
  intros Hf Hok. unfold mail_ok in Hok. rewrite Forall_forall in Hok.
  assert (op ∈ mail_ops) as Hin by (destruct op; set_solver).
  rewrite (Hok op Hin) in Hf. discriminate.
Qed.

Lemma mail_quiet_ok w : (∀ op, mail_fault w op = None) → mail_ok w.
Proof. intros H. apply Forall_forall. auto. Qed.

(** ** Unconfigured mode *)

(** C2, as amended.  For a submission with the five required fields, when
    no configuration was loaded: if every file operation of the log append
    succeeds the handler answers 200 with the received message; if one of
    them raises, the exception reaches the outer handler and the client is
    answered 400 with the generic error message.  In both cases the handler
    returns normally. *)
Theorem unconfigured_response w req st submission :
  received decode_utf8 parse_qs req = Ok submission →
  missing_fields submission = [] →
  ∃ st',
    _handle_form_submission decode_utf8 parse_qs None w req st = (Ok tt, st') ∧
    (fs_ok w → wire st' = wire st ++ [success_response msg_received]) ∧
    (¬ fs_ok w → wire st' = wire st ++ [error_response msg_error]).
Proof.
  intros Hr Hm. rewrite (handle_received_ok _ _ _ _ _ Hr).
  pose proof (on_error_total (validate_and_dispatch None w submission) st)
    as Ht.
  exists (try_except (validate_and_dispatch None w submission) on_error st).2.
  split; [|split].
  - destruct (try_except _ on_error st). simpl in *. by subst.
  - intros Hok. by rewrite (dispatch_log_ok _ _ _ Hm Hok).
  - intros Hno. by destruct (dispatch_log_fail w submission st Hm Hno) as (_ & ? & _).
Qed.

(** ** Configured mode *)

(** C3.  For a submission with the five required fields, when a
    configuration was loaded: [_send_notification_email] never lets an
    exception escape; if any step of the mail send raises, it returns
    [False] and the handler answers 400 with the failed-to-send message; if
    no step raises, it returns [True], the message is handed to the server
    and the handler answers 200 with the sent message. *)
Theorem mail_errors_become_failure config w req st submission :
  received decode_utf8 parse_qs req = Ok submission →
  missing_fields submission = [] →
  (∀ s, ∃ b, (_send_notification_email config w submission s).1 = Ok b) ∧
  ∃ st',
    _handle_form_submission decode_utf8 parse_qs (Some config) w req st =
      (Ok tt, st') ∧
    ((∃ op e, mail_fault w op = Some e) →
       (∀ s, (_send_notification_email config w submission s).1 = Ok false) ∧
       wire st' = wire st ++ [error_response msg_send_failed]) ∧
    ((∀ op, mail_fault w op = None) →
       (∀ s, (_send_notification_email config w submission s).1 = Ok true) ∧
       wire st' = wire st ++ [success_response msg_sent] ∧
       outbox st' = outbox st ++ [notification config w submission]).
Proof.
  intros Hr Hm. split; [intros s; apply send_notification_total|].
  rewrite (handle_received_ok _ _ _ _ _ Hr).
  pose proof (on_error_total
                (validate_and_dispatch (Some config) w submission) st) as Ht.
  exists (try_except (validate_and_dispatch (Some config) w submission)
            on_error st).2.
  split; [|split].
  - destruct (try_except _ on_error st). simpl in *. by subst.
  - intros (op & e & Hf). apply mail_fault_not_ok in Hf. split.
    + intros s. by apply send_notification_fail.
    + by destruct (dispatch_mail_fail config w submission st Hm Hf)
        as (_ & ? & _).
  - intros Hq. apply mail_quiet_ok in Hq. split; [|split].
    + intros s.
      destruct (valid_present submission "name" Hm) as (name & Hn & _);
        [set_solver|].
      destruct (valid_present submission "email" Hm) as (email & He & _);
        [set_solver|].
      by rewrite (send_notification_ok _ _ _ _ name email).
    + by destruct (dispatch_mail_ok config w submission st Hm Hq)
        as (_ & ? & _).
    + by destruct (dispatch_mail_ok config w submission st Hm Hq)
        as (_ & _ & ? & _).
Qed.

(** ** Faults *)

(** C4, as amended.  A POST to [/submit-form] always ends normally with
    exactly one JSON response, of status 200 or 400.  An exception that
    leaves a stage of the pipeline reaches the outer handler and gives the
    generic 400 answer: this holds for the parsing of the length, the read
    of the body and its decoding, and for the log append.  An exception
    raised during the mail send does not reach the outer handler: it is
    caught inside the send and gives the 400 answer with the failed-to-send
    message. *)
Theorem post_always_answered email_config w req st :
  path req = "/submit-form" →
  ∃ st' resp,
    do_POST decode_utf8 parse_qs email_config w req st = (Ok tt, st') ∧
    wire st' = wire st ++ [resp] ∧
    (∃ m, resp = success_response m ∨ resp = error_response m) ∧
    (∀ e, received decode_utf8 parse_qs req = Raise e →
          resp = error_response msg_error) ∧
    (∀ submission,
       received decode_utf8 parse_qs req = Ok submission →
       missing_fields submission = [] →
       (email_config = None → ¬ fs_ok w →
        resp = error_response msg_error) ∧
       (is_Some email_config → ¬ mail_ok w →
        resp = error_response msg_send_failed)).
Proof.
  intros Hp. unfold do_POST. rewrite bool_decide_eq_true_2 by done.
  destruct (handle_one_response email_config w req st)
    as (st' & resp & Hh & Hw & Hj).
  exists st', resp. split; [done|]. split; [done|]. split; [done|]. split.
  - intros e Hr. rewrite (handle_received_raise _ _ _ _ _ Hr) in Hh.
    injection Hh as <-. simpl in Hw. by apply last_response in Hw.
  - intros submission Hr Hm. rewrite (handle_received_ok _ _ _ _ _ Hr) in Hh.
    split.
    + intros -> Hno.
      destruct (dispatch_log_fail w submission st Hm Hno) as (_ & Hw' & _).
      rewrite Hh in Hw'. simpl in Hw'. rewrite Hw in Hw'.
      by apply last_response in Hw'.
    + intros [config ->] Hno.
      destruct (dispatch_mail_fail config w submission st Hm Hno)
        as (_ & Hw' & _).
      rewrite Hh in Hw'. simpl in Hw'. rewrite Hw in Hw'.
      by apply last_response in Hw'.
Qed.

(** ** The log block *)

(** C8.  For a submission with the five required fields handled without a
    configuration, when the file operations succeed: the log file (taken as
    empty when it did not exist) grows by exactly one block, the handle is
    closed afterwards, and the block is an empty line, the line of fifty
    equals signs, the timestamp in ISO format, and one labelled entry for
    each of name, email, company, project type, budget, timeline, location
    and description, in this order; the required values are written as
    submitted, an optional value is written as submitted or as [N/A] when
    its key is absent. *)
Theorem log_variant_appends_block w req st submission :
  received decode_utf8 parse_qs req = Ok submission →
  missing_fields submission = [] →
  fs_ok w →
  ∃ name email project_type budget description,
    submission !! "name" = Some name ∧
    submission !! "email" = Some email ∧
    submission !! "project_type" = Some project_type ∧
    submission !! "budget" = Some budget ∧
    submission !! "description" = Some description ∧
    _handle_form_submission decode_utf8 parse_qs None w req st =
    (Ok tt,
     add_response (success_response msg_received)
       (set_log_file
          (Some (default "" (log_file st) +:+
                 concat_str [
                   LF +:+ repeat_str "=" 50 +:+ LF;
                   "Timestamp: " +:+ isoformat (now w) +:+ LF;
                   "Name: " +:+ name +:+ LF;
                   "Email: " +:+ email +:+ LF;
                   "Company: " +:+
                     default "N/A" (submission !! "company") +:+ LF;
                   "Project Type: " +:+ project_type +:+ LF;
                   "Budget: " +:+ budget +:+ LF;
                   "Timeline: " +:+
                     default "N/A" (submission !! "timeline") +:+ LF;
                   "Location: " +:+
                     default "N/A" (submission !! "location") +:+ LF;
                   "Description: " +:+ description +:+ LF ]))
          false
          (add_diag (received_info submission) st))).
Proof.
  intros Hr Hm Hok.
  destruct (valid_present submission "name" Hm) as (v1 & H1 & _);
    [set_solver|].
  destruct (valid_present submission "email" Hm) as (v2 & H2 & _);
    [set_solver|].
  destruct (valid_present submission "project_type" Hm) as (v3 & H3 & _);
    [set_solver|].
  destruct (valid_present submission "budget" Hm) as (v4 & H4 & _);
    [set_solver|].
  destruct (valid_present submission "description" Hm) as (v5 & H5 & _);
    [set_solver|].
  exists v1, v2, v3, v4, v5. repeat (split; [assumption|]).
  rewrite (handle_received_ok _ _ _ _ _ Hr), (dispatch_log_ok _ _ _ Hm Hok).
  unfold log_block, get_default. by rewrite H1, H2, H3, H4, H5.
Qed.

(** ** Status and success flag *)

(** C9.  Every response that [_handle_form_submission] writes is a JSON
    response of status 200 or 400, and its status is 200 exactly when its
    success flag is true and 400 exactly when the flag is false. *)
Theorem status_matches_success email_config w req st :
  ∃ emitted,
    wire (_handle_form_submission decode_utf8 parse_qs email_config w req st).2
      = wire st ++ emitted ∧
    ∀ resp, resp ∈ emitted →
      (status resp = 200 ∨ status resp = 400) ∧
      (status resp = 200 ↔ json_success resp = Some true) ∧
      (status resp = 400 ↔ json_success resp = Some false).
Proof.
  destruct (handle_one_response email_config w req st)
    as (st' & resp & Hh & Hw & m & Hj).
  exists [resp]. rewrite Hh. split; [done|].
  intros r Hin. apply list_elem_of_singleton in Hin as ->.
  destruct Hj as [-> | ->]; unfold json_success; simpl;
    (split; [auto|split; split; intros; congruence || reflexivity]).
Qed.

(** ** The log file in configured mode *)

(** C10.  When a configuration was loaded, the handler leaves the log file
    as it was, whatever the request and whatever the mail send does; so a
    run of the handler that changes the log file is a run without a
    configuration. *)
Theorem configured_never_logs config w req st :
  log_file
    (_handle_form_submission decode_utf8 parse_qs (Some config) w req st).2
    = log_file st ∧
  log_handle
    (_handle_form_submission decode_utf8 parse_qs (Some config) w req st).2
    = log_handle st ∧
  ∀ email_config,
    log_file
      (_handle_form_submission decode_utf8 parse_qs email_config w req st).2
      ≠ log_file st →
    email_config = None.
Proof.
  assert (∀ c, log_file (handle (Some c) w req st).2 = log_file st ∧
               log_handle (handle (Some c) w req st).2 = log_handle st) as H.
  { intros c. destruct (recv req) as [submission|e] eqn:Hr.
    - rewrite (handle_received_ok _ _ _ _ _ Hr).
      unfold try_except, validate_and_dispatch, bind, logger_info, on_error,
        logger_exception, _send_error_response, _send_success_response.
      destruct (missing_fields submission) as [|f l]; [|done].
      pose proof (send_notification_frame c w submission
                    (add_diag (received_info submission) st)) as (_ & Hl & Hh).
      unfold received_info in *.
      by destruct (_send_notification_email c w submission _)
        as [[[]|e] st'].
    - by rewrite (handle_received_raise _ _ _ _ _ Hr). }
  destruct (H config) as [H1 H2]. repeat split; try done.
  intros [c|] Hne; [|done]. by destruct (H c).
Qed.

End Pipeline.

(** ** Empty and blank values *)

(** C6, as amended.  The validator counts a required field as missing when
    its key is absent or its value is the empty string, and treats the two
    alike; it does not trim, so any other value, also one of white space
    only, counts as present.  After a successful validation every required
    key is present with a value that is not the empty string. *)
Theorem empty_value_counts_as_missing (submission : gmap string string)
    (field : string) :
  missing_fields (<[field := ""]> submission) =
    missing_fields (delete field submission) ∧
  (missing_fields submission = [] →
   ∀ f, f ∈ required_fields → ∃ v, submission !! f = Some v ∧ v ≠ "") ∧
  (∀ f v, submission !! f = Some v → v ≠ "" →
          f ∉ missing_fields submission).
Proof.
  split; [|split].
  - unfold missing_fields. apply list_filter_iff. intros f.
    destruct (decide (field = f)) as [->|Hne].
    + by rewrite lookup_insert_eq, lookup_delete_eq.
    + by rewrite lookup_insert_ne, lookup_delete_ne.
  - intros Hm f Hf. by apply valid_present.
  - intros f v Hl Hv Hin. apply missing_fields_spec in Hin as [_ [H|H]];
      congruence.
Qed.

(** C6 as stated fails: a name of three spaces is empty after trimming, yet
    the submission passes the validation. *)
Lemma blank_name_passes_validation :
  ¬ (∀ submission : gmap string string,
       (∀ field, field ∈ required_fields →
          trimmed_missing submission field →
          field ∈ missing_fields submission) ∧
       (missing_fields submission = [] →
        ∀ field, field ∈ required_fields →
          ∃ v, submission !! field = Some v ∧ is_blank v = false)).
Proof.
  intros H.
  pose proof (H (extract_fields (parse_qs_ascii form_blank_name))) as [_ H2].
  destruct (H2 eq_refl "name") as (v & Hv & Hb); [by constructor|].
  vm_compute in Hv. injection Hv as <-. vm_compute in Hb. discriminate.
Qed.

(** ** The port of the mail server *)

Lemma load_config_bad_port w st (port : string) :
  environ w !! "SMTP_PORT" = Some port →
  int_of_str port = None →
  _load_email_config w st = (Raise ValueError, st).
Proof.
  intros Hp Hi. unfold _load_email_config, bind, lift, get_default.
  rewrite Hp. simpl. by rewrite Hi.
Qed.

(** C5 fails on the code.  With [SMTP_PORT=abc] the conversion to an integer
    raises [ValueError] inside the loader, which has no handler for it: the
    loader does not return, and a request handled in this environment gets
    no response and leaves no log entry. *)
Theorem bad_port_crashes_loader :
  int_of_str "abc" = None ∧
  _load_email_config world_bad_port initial_state =
    (Raise ValueError, initial_state) ∧
  handle_post decode_ascii parse_qs_ascii world_bad_port (post form_ada)
    initial_state = (Raise ValueError, initial_state).
Proof.
  assert (_load_email_config world_bad_port initial_state =
          (Raise ValueError, initial_state)) as H
    by (by apply (load_config_bad_port _ _ "abc")).
  split; [reflexivity|split; [exact H|]].
  unfold handle_post, bind. by rewrite H.
Qed.

(** ** Newlines in the description *)

Lemma replace_without_first_char c old' new s :
  has_char c s = false → replace (String c old') new s = s.
Proof.
  unfold replace. induction s as [|a s IH]; [done|]. simpl.
  intros H. apply orb_false_iff in H as [Ha Hs].
  apply bool_decide_eq_false in Ha.
  rewrite (bool_decide_eq_false_2 (c = a)) by congruence. simpl.
  by rewrite IH.
Qed.

Lemma concat_str_app l1 l2 :
  concat_str (l1 ++ l2) = concat_str l1 +:+ concat_str l2.
Proof.
  induction l1 as [|x l1 IH]; [reflexivity|].
  change (x +:+ concat_str (l1 ++ l2) = (x +:+ concat_str l1) +:+ concat_str l2).
  by rewrite IH, append_assoc.
Qed.

Lemma log_block_keeps_description w submission description :
  submission !! "description" = Some description →
  ∃ before,
    log_block w submission =
    before +:+ "Description: " +:+ description +:+ LF.
Proof.
  intros H. unfold log_block.
  match goal with
  | |- ∃ _, concat_str ?l = _ =>
      exists (concat_str (take 9 l)); rewrite <- (take_drop 9 l) at 1
  end.
  rewrite concat_str_app. f_equal. cbn [drop concat_str].
  unfold get_default. rewrite H, append_empty_r. reflexivity.
Qed.

Lemma email_body_keeps_description w submission description :
  submission !! "description" = Some description →
  has_char (ascii_of_nat 92) description = false →
  ∃ before after,
    _format_email_body w submission =
    before +:+ "<p>" +:+ description +:+ "</p>" +:+ after.
Proof.
  intros H Hb. unfold _format_email_body.
  change (BSL +:+ "n") with (String (ascii_of_nat 92) "n").
  match goal with
  | |- ∃ _ _, concat_str ?l = _ =>
      exists (concat_str (take 22 l) +:+ "                "),
             (LF +:+ concat_str (drop 23 l));
      rewrite <- (take_drop 22 l) at 1
  end.
  rewrite concat_str_app.
  remember (concat_str (take 22 _)) as A eqn:EA. clear EA.
  cbn [drop concat_str].
  unfold get_default at 1. rewrite H. cbn [default].
  rewrite (replace_without_first_char _ _ _ _ Hb).
  change ("                <p>") with ("                " +:+ "<p>").
  by rewrite !append_assoc.
Qed.

(** C7 fails on the code for the mail body.  The submission of the form
    [form_ada] has a description of two lines.  The log block holds it as
    submitted, with its line feed.  The mail body holds it as submitted too:
    the replacement in [_format_email_body] looks for a backslash followed
    by the letter n, not for a line feed, so no [<br>] element is written
    and the line feed stays a bare line feed inside the paragraph. *)
Theorem newline_not_converted_in_mail :
  let submission := extract_fields (parse_qs_ascii form_ada) in
  let description := "Need a site." +:+ LF +:+ "Fast turnaround." in
  let body := _format_email_body quiet_world submission in
  submission !! "description" = Some description ∧
  contains ("Description: " +:+ description +:+ LF)
           (log_block quiet_world submission) = true ∧
  contains ("<p>" +:+ description +:+ "</p>") body = true ∧
  contains "<br>" body = false ∧
  contains ("Need a site.<br>Fast turnaround.") body = false ∧
  outbox (_handle_form_submission decode_ascii parse_qs_ascii
            (Some config_example) quiet_world (post form_ada)
            initial_state).2 =
    [notification config_example quiet_world submission].
Proof. vm_compute. repeat split. Qed.

(** ** The claims that fail as stated *)

(** C2 as stated fails: when the log file cannot be opened, the client of a
    complete submission is not answered 200 with the received message. *)
Lemma log_failure_reaches_client :
  ¬ (∀ decode_utf8 parse_qs w req st submission,
       received decode_utf8 parse_qs req = Ok submission →
       missing_fields submission = [] →
       ∃ st',
         _handle_form_submission decode_utf8 parse_qs None w req st =
           (Ok tt, st') ∧
         wire st' = wire st ++ [success_response msg_received]).
Proof.
  intros H.
  destruct (H decode_ascii parse_qs_ascii world_log_refused (post form_ada)
              initial_state (extract_fields (parse_qs_ascii form_ada)))
    as (st' & Hh & Hw).
  - vm_compute. reflexivity.
  - vm_compute. reflexivity.
  - vm_compute in Hh. injection Hh as <-. vm_compute in Hw. discriminate.
Qed.

(** C4 as stated fails: when the mail server rejects the login, an exception
    is raised during the dispatch, yet the answer is not the generic error
    message. *)
Lemma mail_fault_gets_its_own_answer :
  ¬ (∀ decode_utf8 parse_qs email_config w req st,
       path req = "/submit-form" →
       exception_raised decode_utf8 parse_qs email_config w req →
       ∃ st',
         do_POST decode_utf8 parse_qs email_config w req st = (Ok tt, st') ∧
         wire st' = wire st ++ [error_response msg_error]).
Proof.
  intros H.
  destruct (H decode_ascii parse_qs_ascii (Some config_example)
              world_login_refused (post form_ada) initial_state)
    as (st' & Hh & Hw).
  - reflexivity.
  - right. exists (extract_fields (parse_qs_ascii form_ada)).
    split; [vm_compute; reflexivity|]. split; [vm_compute; reflexivity|].
    right. split; [by eexists|].
    by apply (mail_fault_not_ok _ SmtpLogin SMTPException).
  - vm_compute in Hh. injection Hh as <-. vm_compute in Hw. discriminate.
Qed.

(** ** The theorems at concrete requests *)

Lemma fs_ok_quiet : fs_ok quiet_world.
Proof. unfold fs_ok, log_ops. simpl. repeat constructor. Defined.

Lemma missing_fields_rejected_witness :
  ∃ st',
    _handle_form_submission decode_ascii parse_qs_ascii None quiet_world
      (post form_partial) initial_state = (Ok tt, st') ∧
    wire st' =
      [error_response "Missing required fields: email, budget"] ∧
    outbox st' = [] ∧ log_file st' = None.
Proof.
  destruct (missing_fields_rejected decode_ascii parse_qs_ascii None
              quiet_world (post form_partial) initial_state
              (extract_fields (parse_qs_ascii form_partial)))
    as (st' & Hh & Hw & Ho & Hl & _).
  - vm_compute. reflexivity.
  - exists "email". split; [by do 2 constructor|]. left.
    vm_compute. reflexivity.
  - exists st'. vm_compute in Hw. auto.
Defined.

Lemma unconfigured_response_witness :
  ∃ st',
    _handle_form_submission decode_ascii parse_qs_ascii None quiet_world
      (post form_ada) initial_state = (Ok tt, st') ∧
    wire st' = [success_response msg_received].
Proof.
  destruct (unconfigured_response decode_ascii parse_qs_ascii quiet_world
              (post form_ada) initial_state
              (extract_fields (parse_qs_ascii form_ada)))
    as (st' & Hh & Hok & _).
  - vm_compute. reflexivity.
  - vm_compute. reflexivity.
  - exists st'. split; [exact Hh|]. exact (Hok fs_ok_quiet).
Defined.

Lemma mail_errors_become_failure_witness :
  ∃ st',
    _handle_form_submission decode_ascii parse_qs_ascii (Some config_example)
      world_login_refused (post form_ada) initial_state = (Ok tt, st') ∧
    wire st' = [error_response msg_send_failed].
Proof.
  destruct (mail_errors_become_failure decode_ascii parse_qs_ascii
              config_example world_login_refused (post form_ada)
              initial_state (extract_fields (parse_qs_ascii form_ada)))
    as (_ & st' & Hh & Hfail & _).
  - vm_compute. reflexivity.
  - vm_compute. reflexivity.
  - exists st'. split; [exact Hh|].
    destruct Hfail as [_ Hw]; [|exact Hw].
    exists SmtpLogin, SMTPException. reflexivity.
Defined.

Lemma post_always_answered_witness :
  ∃ st' resp,
    do_POST decode_ascii parse_qs_ascii None world_log_refused
      (post form_ada) initial_state = (Ok tt, st') ∧
    wire st' = [resp] ∧
    (∃ m, resp = success_response m ∨ resp = error_response m).
Proof.
  destruct (post_always_answered decode_ascii parse_qs_ascii None
              world_log_refused (post form_ada) initial_state)
    as (st' & resp & Hh & Hw & Hj & _).
  - reflexivity.
  - exists st', resp. auto.
Defined.

Lemma log_variant_appends_block_witness :
  log_file
    (_handle_form_submission decode_ascii parse_qs_ascii None quiet_world
       (post form_ada) initial_state).2 =
  Some (concat_str [
    LF +:+ "==================================================" +:+ LF;
    "Timestamp: 2024-01-02T12:00:05" +:+ LF;
    "Name: Ada" +:+ LF;
    "Email: ada@x.com" +:+ LF;
    "Company: N/A" +:+ LF;
    "Project Type: web" +:+ LF;
    "Budget: $10k" +:+ LF;
    "Timeline: N/A" +:+ LF;
    "Location: N/A" +:+ LF;
    "Description: Need a site." +:+ LF +:+ "Fast turnaround." +:+ LF ]).
Proof.
  destruct (log_variant_appends_block decode_ascii parse_qs_ascii quiet_world
              (post form_ada) initial_state
              (extract_fields (parse_qs_ascii form_ada)))
    as (v1 & v2 & v3 & v4 & v5 & H1 & H2 & H3 & H4 & H5 & Hh).
  - vm_compute. reflexivity.
  - vm_compute. reflexivity.
  - exact fs_ok_quiet.
  - rewrite Hh. vm_compute in H1, H2, H3, H4, H5.
    injection H1 as <-. injection H2 as <-. injection H3 as <-.
    injection H4 as <-. injection H5 as <-.
    vm_compute. reflexivity.
Defined.

(** * Further properties *)

(** ** The configuration loader *)

Lemma load_config_unfold w st port :
  int_of_str (get_default (environ w) "SMTP_PORT" "587") = Some port →
  _load_email_config w st =
  match missing_credentials w with
  | _ :: _ =>
      (Ok None,
       add_diag (LogError ("Missing required environment variables: " +:+
                           join ", " (missing_credentials w))) st)
  | [] =>
      (Ok (Some {| smtp_server :=
                     get_default (environ w) "SMTP_SERVER" "smtp.gmail.com";
                   smtp_port := port;
                   sender_email := environ w !! "SENDER_EMAIL";
                   sender_password := environ w !! "SENDER_PASSWORD";
                   recipient_email := environ w !! "RECIPIENT_EMAIL" |}), st)
  end.
Proof.
  intros Hp. unfold _load_email_config, missing_credentials, bind, lift,
    py_int.
  rewrite Hp. cbn -[filter].
  rewrite !filter_cons, filter_nil.
  change (config_get ?c "sender_email") with (sender_email c).
  change (config_get ?c "sender_password") with (sender_password c).
  change (config_get ?c "recipient_email") with (recipient_email c).
  cbn.
  destruct (falsy (environ w !! "SENDER_EMAIL")),
    (falsy (environ w !! "SENDER_PASSWORD")),
    (falsy (environ w !! "RECIPIENT_EMAIL")); reflexivity.
Qed.

Lemma falsy_false (x : option string) :
  falsy x = false ↔ ∃ v, x = Some v ∧ v ≠ "".
Proof.
  destruct x as [s|]; simpl.
  - rewrite bool_decide_eq_false. split; [eauto|].
    intros (v & [= ->] & Hv). done.
  - split; [done|]. intros (v & Hv & _). done.
Qed.

Lemma missing_credentials_nil w :
  missing_credentials w = [] ↔
  ∀ var, var ∈ ["SENDER_EMAIL"; "SENDER_PASSWORD"; "RECIPIENT_EMAIL"] →
         ∃ v, environ w !! var = Some v ∧ v ≠ "".
Proof.
  unfold missing_credentials. split.
  - intros H var Hvar. apply falsy_false.
    destruct (falsy (environ w !! "SENDER_EMAIL")) eqn:E1; [done|].
    destruct (falsy (environ w !! "SENDER_PASSWORD")) eqn:E2; [done|].
    destruct (falsy (environ w !! "RECIPIENT_EMAIL")) eqn:E3; [done|].
    apply elem_of_cons in Hvar as [->|Hvar]; [done|].
    apply elem_of_cons in Hvar as [->|Hvar]; [done|].
    apply elem_of_cons in Hvar as [->|Hvar]; [done|].
    by apply elem_of_nil in Hvar.
  - intros H.
    rewrite (proj2 (falsy_false _) (H "SENDER_EMAIL" ltac:(by constructor))).
    rewrite (proj2 (falsy_false _)
               (H "SENDER_PASSWORD" ltac:(by do 2 constructor))).
    by rewrite (proj2 (falsy_false _)
                  (H "RECIPIENT_EMAIL" ltac:(by do 3 constructor))).
Qed.

(** X1.  In an environment whose [SMTP_PORT] is unset or is a number, the
    loader returns normally, writes no response, sends no mail and leaves
    the log file alone; it returns a configuration exactly when each of
    [SENDER_EMAIL], [SENDER_PASSWORD] and [RECIPIENT_EMAIL] is set to a
    value that is not empty. *)
Theorem loader_selects_mode w st port :
  int_of_str (get_default (environ w) "SMTP_PORT" "587") = Some port →
  ∃ email_config st',
    _load_email_config w st = (Ok email_config, st') ∧
    wire st' = wire st ∧ outbox st' = outbox st ∧
    log_file st' = log_file st ∧ log_handle st' = log_handle st ∧
    (is_Some email_config ↔
     ∀ var, var ∈ ["SENDER_EMAIL"; "SENDER_PASSWORD"; "RECIPIENT_EMAIL"] →
            ∃ v, environ w !! var = Some v ∧ v ≠ "").
Proof.
  intros Hp. rewrite (load_config_unfold w st port Hp).
  pose proof (missing_credentials_nil w) as Hn.
  destruct (missing_credentials w) as [|c l]; do 2 eexists;
    (split; [reflexivity|]); simpl; (do 4 (split; [done|])).
  - split; [intros _; by apply Hn | by eexists].
  - split; [by intros [? ?] | intros H; by apply Hn in H].
Qed.

(** X2.  Whenever the loader returns a configuration, it changed nothing,
    the server is [SMTP_SERVER] or [smtp.gmail.com], the port is the number
    written in [SMTP_PORT] or 587, and the three credentials are the values
    of their variables, none of them empty. *)
Theorem loader_config_values w st config st' :
  _load_email_config w st = (Ok (Some config), st') →
  st' = st ∧
  smtp_server config = default "smtp.gmail.com" (environ w !! "SMTP_SERVER") ∧
  int_of_str (default "587" (environ w !! "SMTP_PORT")) =
    Some (smtp_port config) ∧
  (∃ v, environ w !! "SENDER_EMAIL" = Some v ∧ v ≠ "" ∧
        sender_email config = Some v) ∧
  (∃ v, environ w !! "SENDER_PASSWORD" = Some v ∧ v ≠ "" ∧
        sender_password config = Some v) ∧
  (∃ v, environ w !! "RECIPIENT_EMAIL" = Some v ∧ v ≠ "" ∧
        recipient_email config = Some v).
Proof.
  intros H.
  destruct (int_of_str (get_default (environ w) "SMTP_PORT" "587"))
    as [port|] eqn:Hp.
  - rewrite (load_config_unfold w st port Hp) in H.
    destruct (missing_credentials w) as [|c l] eqn:Hm; [|discriminate].
    injection H as <- <-. simpl.
    pose proof (proj1 (missing_credentials_nil w) Hm) as Hc.
    destruct (Hc "SENDER_EMAIL") as (v1 & H1 & N1); [by constructor|].
    destruct (Hc "SENDER_PASSWORD") as (v2 & H2 & N2);
      [by do 2 constructor|].
    destruct (Hc "RECIPIENT_EMAIL") as (v3 & H3 & N3);
      [by do 3 constructor|].
    unfold get_default in Hp. repeat split; eauto.
  - unfold _load_email_config, bind, lift, py_int in H. rewrite Hp in H.
    discriminate.
Qed.

Lemma loader_selects_mode_witness :
  ∃ email_config st',
    _load_email_config world_configured initial_state =
      (Ok email_config, st') ∧
    wire st' = wire initial_state ∧ outbox st' = outbox initial_state ∧
    log_file st' = log_file initial_state ∧
    log_handle st' = log_handle initial_state ∧
    (is_Some email_config ↔
     ∀ var, var ∈ ["SENDER_EMAIL"; "SENDER_PASSWORD"; "RECIPIENT_EMAIL"] →
            ∃ v, environ world_configured !! var = Some v ∧ v ≠ "").
Proof.
  apply (loader_selects_mode world_configured initial_state 2525).
  vm_compute. reflexivity.
Defined.

Lemma loader_config_values_witness :
  int_of_str (default "587" (environ world_configured !! "SMTP_PORT")) =
    Some (smtp_port config_configured).
Proof.
  destruct (loader_config_values world_configured initial_state
              config_configured initial_state) as (_ & _ & H & _).
  - vm_compute. reflexivity.
  - exact H.
Defined.

(** ** The request handler *)

Section Requests.

Variable decode_utf8 : list Byte.byte → result string.
Variable parse_qs : string → list (string * list string).

Local Abbreviation recv' := (received decode_utf8 parse_qs).
Local Abbreviation handle' := (_handle_form_submission decode_utf8 parse_qs).

(** The handler uses a request only through the submission it decodes
    to. *)
Lemma handle_by_received email_config w req1 req2 st :
  recv' req1 = recv' req2 →
  handle' email_config w req1 st = handle' email_config w req2 st.
Proof.
  intros H. destruct (recv' req2) as [submission|e] eqn:E.
  - by rewrite (handle_received_ok _ _ _ _ _ _ _ H),
      (handle_received_ok _ _ _ _ _ _ _ E).
  - by rewrite (handle_received_raise _ _ _ _ _ _ _ H),
      (handle_received_raise _ _ _ _ _ _ _ E).
Qed.

(** X3.  In an environment whose [SMTP_PORT] is unset or is a number, a
    POST to [/submit-form] handled from the construction of the handler on
    ends normally with exactly one JSON response, of status 200 or 400. *)
Theorem handle_post_answered w req st port :
  int_of_str (get_default (environ w) "SMTP_PORT" "587") = Some port →
  path req = "/submit-form" →
  ∃ st' resp,
    handle_post decode_utf8 parse_qs w req st = (Ok tt, st') ∧
    wire st' = wire st ++ [resp] ∧
    (∃ m, resp = success_response m ∨ resp = error_response m).
Proof.
  intros Hp Hpath. unfold handle_post, bind, do_POST.
  rewrite (load_config_unfold w st port Hp), bool_decide_eq_true_2 by done.
  destruct (missing_credentials w) as [|c l].
  - apply handle_one_response.
  - destruct (handle_one_response decode_utf8 parse_qs None w req
                (add_diag (LogError ("Missing required environment variables: "
                   +:+ join ", " (c :: l))) st))
      as (st' & resp & H1 & H2 & H3).
    by exists st', resp.
Qed.

(** X4.  [do_POST] writes exactly one response for every request, and this
    response carries the three CORS headers of [end_headers].  On a path
    other than [/submit-form] (a query string or a trailing slash makes it
    another path) the response is the 404 page and nothing else happens:
    the body is not read, nothing is mailed or logged. *)
Theorem do_POST_one_response email_config w req st :
  ∃ st' resp,
    do_POST decode_utf8 parse_qs email_config w req st = (Ok tt, st') ∧
    wire st' = wire st ++ [resp] ∧
    (∀ h, h ∈ cors_headers → h ∈ headers resp) ∧
    (path req ≠ "/submit-form" →
     resp = not_found_response ∧ st' = add_response not_found_response st).
Proof.
  unfold do_POST. case_bool_decide as Hp.
  - destruct (handle_one_response decode_utf8 parse_qs email_config w req st)
      as (st' & resp & H1 & H2 & m & Hm).
    exists st', resp. repeat split; try done.
    intros h Hh. destruct Hm as [-> | ->]; simpl; unfold json_headers;
      apply elem_of_app; by right.
  - do 2 eexists. split; [reflexivity|]. simpl. repeat split; done.
Qed.


(** X6.  Only the bytes counted by [Content-Length] are used: two requests
    with the same headers and the same first [n] bytes, where [n] is the
    length announced, are handled alike, whatever follows in the body. *)
Theorem bytes_beyond_length_ignored email_config w req1 req2 st n :
  req_headers req1 = req_headers req2 →
  read_fault req1 n = read_fault req2 n →
  py_int (req_headers req1 !! "Content-Length") = Ok n →
  0 <= n →
  take (Z.to_nat n) (rfile req1) = take (Z.to_nat n) (rfile req2) →
  _handle_form_submission decode_utf8 parse_qs email_config w req1 st =
  _handle_form_submission decode_utf8 parse_qs email_config w req2 st.
Proof.
  intros Hh Hf Hn Hpos Ht. apply handle_by_received.
  unfold received, read_bytes. rewrite <- Hh, Hn, <- Hf.
  rewrite bool_decide_eq_false_2 by lia.
  destruct (read_fault req1 n); [done|].
  rewrite (bool_decide_eq_false_2 (n = -1)) by lia. by rewrite Ht.
Qed.

End Requests.

(** ** Extraction and validation *)

Lemma extract_fields_fold (form_data : list (string * list string))
    (acc : gmap string string) (key : string) :
  NoDup form_data.*1 →
  (∀ value, (key, value) ∈ form_data →
     foldl (λ submission kv, <[kv.1 := first_value kv.2]> submission)
       acc form_data !! key = Some (first_value value)) ∧
  (key ∉ form_data.*1 →
     foldl (λ submission kv, <[kv.1 := first_value kv.2]> submission)
       acc form_data !! key = acc !! key).
Proof.
  revert acc. induction form_data as [|[k vs] l IH]; intros acc Hnd.
  - split; [intros value H; by apply elem_of_nil in H | done].
  - apply NoDup_cons in Hnd as [Hk Hnd]. simpl in *.
    destruct (IH (<[k := first_value vs]> acc) Hnd) as [IH1 IH2].
    split.
    + intros value Hin. apply elem_of_cons in Hin as [[= -> ->] | Hin].
      * rewrite (IH2 Hk). apply lookup_insert_eq.
      * by apply IH1.
    + intros Hnot. apply not_elem_of_cons in Hnot as [Hne Hnot].
      rewrite (IH2 Hnot). by apply lookup_insert_ne.
Qed.

(** X7.  The submission built from the parsed form (a dictionary: no key
    occurs twice) maps every key of the form to the first of its values,
    or to the empty string when the list of values is empty, and has no
    other key. *)
Theorem extract_fields_first_value form_data key :
  NoDup form_data.*1 →
  (∀ v rest, (key, v :: rest) ∈ form_data →
             extract_fields form_data !! key = Some v) ∧
  ((key, []) ∈ form_data → extract_fields form_data !! key = Some "") ∧
  (key ∉ form_data.*1 → extract_fields form_data !! key = None).
Proof.
  intros Hnd.
  destruct (extract_fields_fold form_data ∅ key Hnd) as [H1 H2].
  repeat split.
  - intros v rest Hin. apply (H1 _ Hin).
  - intros Hin. apply (H1 _ Hin).
  - intros Hnot. apply (H2 Hnot).
Qed.

Ltac solve_known :=
  unfold known_fields;
  repeat first [apply list_elem_of_here | apply list_elem_of_further].

Lemma unknown_lookup (submission : gmap string string) key value field :
  key ∉ known_fields → field ∈ known_fields →
  <[key := value]> submission !! field = submission !! field.
Proof. intros Hk Hf. apply lookup_insert_ne. by intros ->. Qed.

Lemma missing_fields_ignores (submission : gmap string string) key value :
  key ∉ known_fields →
  missing_fields (<[key := value]> submission) = missing_fields submission.
Proof.
  intros Hk. unfold missing_fields, required_fields.
  rewrite !filter_cons, !filter_nil.
  by rewrite !(unknown_lookup _ _ _ _ Hk) by solve_known.
Qed.

Lemma format_email_body_ignores w (submission : gmap string string) key value :
  key ∉ known_fields →
  _format_email_body w (<[key := value]> submission) =
  _format_email_body w submission.
Proof.
  intros Hk. unfold _format_email_body, get_default.
  by rewrite !(unknown_lookup _ _ _ _ Hk) by solve_known.
Qed.

Lemma log_submission_ignores w (submission : gmap string string) key value st :
  key ∉ known_fields →
  _log_submission w (<[key := value]> submission) st =
  _log_submission w submission st.
Proof.
  intros Hk. unfold _log_submission, get_default.
  by rewrite !(unknown_lookup _ _ _ _ Hk) by solve_known.
Qed.

Lemma send_notification_ignores config w (submission : gmap string string)
    key value st :
  key ∉ known_fields →
  _send_notification_email config w (<[key := value]> submission) st =
  _send_notification_email config w submission st.
Proof.
  intros Hk. unfold _send_notification_email, getitem.
  rewrite (format_email_body_ignores _ _ _ _ Hk).
  by rewrite !(unknown_lookup _ _ _ _ Hk) by solve_known.
Qed.

(** X8.  A form field other than the eight that the handler knows (name,
    email, company, project_type, budget, timeline, location, description)
    has no influence on what the handler does with the submission: the
    validation, the logger record, the mail, the log block, the response and
    the result are the same with and without it. *)
Theorem unknown_fields_ignored email_config w
    (submission : gmap string string) key value st :
  key ∉ known_fields →
  validate_and_dispatch email_config w (<[key := value]> submission) st =
  validate_and_dispatch email_config w submission st.
Proof.
  intros Hk. unfold validate_and_dispatch, bind, logger_info, get_default.
  rewrite (missing_fields_ignores _ _ _ Hk).
  rewrite (unknown_lookup _ _ _ "email" Hk) by solve_known.
  destruct (missing_fields submission); [|done].
  destruct email_config as [config|].
  - by rewrite send_notification_ignores.
  - by rewrite log_submission_ignores.
Qed.

(** X9.  A submission passes the validation exactly when each of the five
    required fields is present with a value that is not the empty string;
    the list of missing fields never repeats a name and keeps the order of
    the list of required fields. *)
Theorem validation_exact (submission : gmap string string) :
  (missing_fields submission = [] ↔
   ∀ field, field ∈ required_fields →
            ∃ v, submission !! field = Some v ∧ v ≠ "") ∧
  sublist (missing_fields submission) required_fields ∧
  NoDup (missing_fields submission).
Proof.
  split; [split|split].
  - intros Hm field Hf. by apply valid_present.
  - intros H. apply elem_of_nil_inv. intros field Hin.
    apply missing_fields_spec in Hin as [Hf Hmiss].
    destruct (H field Hf) as (v & Hv & Hne).
    destruct Hmiss; congruence.
  - apply sublist_filter.
  - apply NoDup_filter. apply (bool_decide_unpack (NoDup required_fields)).
    vm_compute. exact I.
Qed.

(** ** The log file *)

Ltac log_prefix k :=
  match goal with
  | |- ∃ _ _, concat_str ?L = _ ∧ _ =>
      exists (concat_str (take k L)), (concat_str (drop k L));
      split; [by rewrite <- concat_str_app, take_drop|];
      split; [first [left; reflexivity
                    | right; cbn; rewrite ?append_assoc, ?append_empty_r;
                      reflexivity]|];
      split; [auto|];
      intros; first [discriminate | reflexivity]
  end.

Lemma log_submission_prefix w submission st :
  ∃ written rest,
    log_block w submission = written +:+ rest ∧
    (log_file (_log_submission w submission st).2 = log_file st ∨
     log_file (_log_submission w submission st).2 =
       Some (default "" (log_file st) +:+ written)) ∧
    (log_handle (_log_submission w submission st).2 = false ∨
     log_handle (_log_submission w submission st).2 = log_handle st) ∧
    ((_log_submission w submission st).1 = Ok tt → rest = "").
Proof.
  unfold log_block.
  match goal with
  | |- context [concat_str ?L] =>
      set (B := concat_str L);
      assert (B = concat_str L) as HB by reflexivity; clearbody B
  end.
  unfold_log. repeat step_fs w; rewrite HB;
    first [log_prefix 0%nat | log_prefix 1%nat | log_prefix 2%nat
          | log_prefix 3%nat | log_prefix 4%nat | log_prefix 5%nat
          | log_prefix 6%nat | log_prefix 7%nat | log_prefix 8%nat
          | log_prefix 9%nat | log_prefix 10%nat].
Qed.

Ltac step_mail_hyp w :=
  match goal with
  | |- context [mail_fault w ?op] =>
      let E := fresh "E" in destruct (mail_fault w op) eqn:E; cbn
  end.

Lemma send_notification_outbox config w submission st :
  outbox (_send_notification_email config w submission st).2 = outbox st ∨
  (Forall (λ op, mail_fault w op = None) send_ops ∧
   outbox (_send_notification_email config w submission st).2 =
     outbox st ++ [notification config w submission]).
Proof.
  unfold_mail. unfold notification, get_default.
  destruct (submission !! "name") as [name|] eqn:Hn,
    (submission !! "email") as [email|] eqn:He; cbn;
    repeat step_mail_hyp w; auto;
    right; (split; [unfold send_ops; repeat constructor; assumption|]);
    reflexivity.
Qed.

Lemma send_notification_quit config w submission st e :
  is_Some (submission !! "name") →
  Forall (λ op, mail_fault w op = None) send_ops →
  mail_fault w SmtpQuit = Some e →
  _send_notification_email config w submission st =
  (Ok false,
   add_diag (LogException "Failed to send email: " e)
     (add_mail (notification config w submission) st)).
Proof.
  intros [name Hn] H Hq. unfold send_ops in H.
  repeat (apply Forall_cons in H as [? H]).
  unfold_mail. rewrite Hn, Hq. cbn. repeat step_mail_hyp w; try congruence.
  unfold notification, get_default. rewrite Hn. reflexivity.
Qed.

Section Effects.

Variable decode_utf8 : list Byte.byte → result string.
Variable parse_qs : string → list (string * list string).

Local Abbreviation recv2 := (received decode_utf8 parse_qs).
Local Abbreviation handle2 := (_handle_form_submission decode_utf8 parse_qs).

(** X10.  Whatever the request, the configuration and the failures of the
    file system, the handler keeps the earlier content of the log file: the
    file is unchanged, or (without a configuration, for a submission that
    passed the validation) it is the old content followed by a leading part
    of the block of this submission, which is the whole block when the
    answer is the 200 response.  The handle is closed or as it was. *)
Theorem log_file_append_only email_config w req st :
  (log_handle (_handle_form_submission decode_utf8 parse_qs email_config w req st).2 = false ∨
   log_handle (_handle_form_submission decode_utf8 parse_qs email_config w req st).2 = log_handle st) ∧
  (log_file (_handle_form_submission decode_utf8 parse_qs email_config w req st).2 = log_file st ∨
   ∃ submission written rest,
     email_config = None ∧
     received decode_utf8 parse_qs req = Ok submission ∧
     missing_fields submission = [] ∧
     log_block w submission = written +:+ rest ∧
     log_file (_handle_form_submission decode_utf8 parse_qs email_config w req st).2 =
       Some (default "" (log_file st) +:+ written) ∧
     (wire (_handle_form_submission decode_utf8 parse_qs email_config w req st).2 =
        wire st ++ [success_response msg_received] → rest = "")).
Proof.
  destruct (recv2 req) as [submission|e] eqn:Hr.
  2: { rewrite (handle_received_raise _ _ _ _ _ _ _ Hr). simpl. auto. }
  rewrite (handle_received_ok _ _ _ _ _ _ _ Hr).
  unfold try_except, validate_and_dispatch, bind, logger_info, on_error,
    logger_exception, _send_error_response, _send_success_response.
  destruct (missing_fields submission) as [|f l] eqn:Hm; [|simpl; auto].
  destruct email_config as [config|].
  - pose proof (send_notification_frame config w submission
                  (add_diag (received_info submission) st)) as (_ & Hl & Hh).
    unfold received_info in *.
    destruct (_send_notification_email config w submission _)
      as [[[]|e] st']; simpl in *; rewrite Hl, Hh; auto.
  - destruct (log_submission_prefix w submission
                (add_diag (received_info submission) st))
      as (written & rest & Hb & Hf & Hh & Hok).
    pose proof (log_submission_frame w submission
                  (add_diag (received_info submission) st)) as (Hw & _).
    unfold received_info in *.
    destruct (_log_submission w submission _) as [[[]|e] st']; simpl in *.
    + split; [done|]. destruct Hf as [Hf|Hf]; [by left|right].
      exists submission, written, rest. repeat split; try done. auto.
    + split; [done|]. destruct Hf as [Hf|Hf]; [by left|right].
      exists submission, written, rest. repeat split; try done.
      rewrite Hw. intros Heq. apply last_response in Heq. discriminate.
Qed.

(** X11.  The handler hands at most one message to the mail server per
    request, and only with a configuration, for a submission that passed
    the validation, when every step of the mail variant up to the hand-over
    succeeded; the message is then the notification built from this
    configuration and this submission. *)
Theorem at_most_one_mail email_config w req st :
  outbox (_handle_form_submission decode_utf8 parse_qs email_config w req st).2 = outbox st ∨
  ∃ config submission,
    email_config = Some config ∧
    received decode_utf8 parse_qs req = Ok submission ∧
    missing_fields submission = [] ∧
    Forall (λ op, mail_fault w op = None) send_ops ∧
    outbox (_handle_form_submission decode_utf8 parse_qs email_config w req st).2 =
      outbox st ++ [notification config w submission].
Proof.
  destruct (recv2 req) as [submission|e] eqn:Hr.
  2: { rewrite (handle_received_raise _ _ _ _ _ _ _ Hr). by left. }
  rewrite (handle_received_ok _ _ _ _ _ _ _ Hr).
  unfold try_except, validate_and_dispatch, bind, logger_info, on_error,
    logger_exception, _send_error_response, _send_success_response.
  destruct (missing_fields submission) as [|f l] eqn:Hm; [|by left].
  destruct email_config as [config|].
  - pose proof (send_notification_outbox config w submission
                  (add_diag (received_info submission) st)) as Ho.
    unfold received_info in *.
    destruct (_send_notification_email config w submission _)
      as [[[]|e] st']; simpl in *;
      (destruct Ho as [Ho | [Hs Ho]];
       [by left | right; by exists config, submission]).
  - pose proof (log_submission_frame w submission
                  (add_diag (received_info submission) st)) as (_ & Ho & _).
    unfold received_info in *.
    destruct (_log_submission w submission _) as [[[]|e] st']; simpl in *;
      by left.
Qed.

(** X12.  With a configuration and a submission that passed the validation,
    when the mail server accepts the message and the closing QUIT of the
    session then raises, the message has been handed over and the client is
    nevertheless answered 400 with the failed-to-send message. *)
Theorem quit_failure_reported_as_failed_send config w req st submission e :
  received decode_utf8 parse_qs req = Ok submission →
  missing_fields submission = [] →
  Forall (λ op, mail_fault w op = None) send_ops →
  mail_fault w SmtpQuit = Some e →
  ∃ st',
    _handle_form_submission decode_utf8 parse_qs (Some config) w req st =
      (Ok tt, st') ∧
    outbox st' = outbox st ++ [notification config w submission] ∧
    wire st' = wire st ++ [error_response msg_send_failed].
Proof.
  intros Hr Hm Hs Hq.
  destruct (valid_present submission "name" Hm) as (name & Hn & _);
    [by constructor|].
  rewrite (handle_received_ok _ _ _ _ _ _ _ Hr).
  unfold try_except, validate_and_dispatch, bind, logger_info.
  rewrite Hm, (send_notification_quit _ _ _ _ e); [|by eexists|done|done].
  eexists. split; [reflexivity|]. done.
Qed.

(** X13.  Two submissions that pass the validation, handled one after the
    other without a configuration and without file failures, leave the log
    file with the old content followed by the block of the first and then
    the block of the second, and each is answered 200. *)
Theorem log_blocks_in_arrival_order w1 w2 req1 req2 st submission1
    submission2 :
  received decode_utf8 parse_qs req1 = Ok submission1 →
  missing_fields submission1 = [] → fs_ok w1 →
  received decode_utf8 parse_qs req2 = Ok submission2 →
  missing_fields submission2 = [] → fs_ok w2 →
  ∃ st1 st2,
    _handle_form_submission decode_utf8 parse_qs None w1 req1 st =
      (Ok tt, st1) ∧
    _handle_form_submission decode_utf8 parse_qs None w2 req2 st1 =
      (Ok tt, st2) ∧
    log_file st2 =
      Some (default "" (log_file st) +:+ log_block w1 submission1 +:+
            log_block w2 submission2) ∧
    log_handle st2 = false ∧
    wire st2 = wire st ++ [success_response msg_received;
                           success_response msg_received].
Proof.
  intros Hr1 Hm1 Hf1 Hr2 Hm2 Hf2. do 2 eexists.
  rewrite (handle_received_ok _ _ _ _ _ _ _ Hr1),
    (dispatch_log_ok _ _ _ Hm1 Hf1).
  split; [reflexivity|].
  rewrite (handle_received_ok _ _ _ _ _ _ _ Hr2),
    (dispatch_log_ok _ _ _ Hm2 Hf2).
  split; [reflexivity|]. simpl.
  by rewrite append_assoc, <- app_assoc.
Qed.

End Effects.

(** ** The mail body *)

Ltac body_row k :=
  match goal with
  | |- ∃ _ _, concat_str ?L = _ =>
      exists (concat_str (take k L) +:+ "                "),
             (LF +:+ concat_str (drop (S k) L));
      rewrite <- (take_drop k L) at 1;
      rewrite concat_str_app;
      generalize (concat_str (take k L)); intros A;
      cbn [drop concat_str];
      rewrite !append_assoc; f_equal; reflexivity
  end.

(** X14.  The mail body shows each of name, email, company, project type,
    budget, timeline and location in a row of its own, with the value as
    submitted, character for character (nothing is escaped for HTML), or
    [N/A] when the key is absent. *)
Theorem email_body_embeds_values w (submission : gmap string string)
    label key :
  (label, key) ∈ body_rows →
  ∃ before after,
    _format_email_body w submission =
    before +:+ "<p><strong>" +:+ label +:+ ":</strong> " +:+
    get_default submission key "N/A" +:+ "</p>" +:+ after.
Proof.
  intros Hin. unfold body_rows in Hin.
  repeat (apply elem_of_cons in Hin as [[= -> ->] | Hin]);
    [..|by apply elem_of_nil in Hin]; unfold _format_email_body.
  - body_row 7%nat.
  - body_row 8%nat.
  - body_row 9%nat.
  - body_row 14%nat.
  - body_row 15%nat.
  - body_row 16%nat.
  - body_row 17%nat.
Qed.

(** ** Start-up *)

(** X15.  The choice of the port never raises.  The port is 8000 when there
    is no argument; it is the number written in the first argument when
    this is an integer literal, whatever its range; otherwise it is 8000
    and the invalid-port line is printed.  Further arguments are not
    looked at. *)
Theorem main_port_total argv :
  ∃ port notes,
    main_port argv = Ok (port, notes) ∧
    match argv !! 1%nat with
    | None => port = 8000 ∧ notes = []
    | Some arg =>
        match int_of_str arg with
        | Some n => port = n ∧ notes = []
        | None => port = 8000 ∧ notes = [InvalidPort]
        end
    end.
Proof.
  unfold main_port. case_bool_decide as Hl.
  - destruct (argv !! 1%nat) as [arg|] eqn:E.
    + unfold py_int. destruct (int_of_str arg); eauto.
    + apply lookup_ge_None in E. lia.
  - rewrite (proj2 (lookup_ge_None argv 1%nat)) by lia. eauto.
Qed.

(** ** The further properties at concrete inputs *)

Lemma handle_post_answered_witness :
  ∃ st' resp,
    handle_post decode_ascii parse_qs_ascii world_configured (post form_ada)
      initial_state = (Ok tt, st') ∧
    wire st' = wire initial_state ++ [resp] ∧
    (∃ m, resp = success_response m ∨ resp = error_response m).
Proof.
  apply (handle_post_answered decode_ascii parse_qs_ascii world_configured
           (post form_ada) initial_state 2525).
  - vm_compute. reflexivity.
  - reflexivity.
Defined.


Lemma bytes_beyond_length_ignored_witness :
  _handle_form_submission decode_ascii parse_qs_ascii None quiet_world
    (post_with_length "8" "name=Ada&email=ada%40x.com") initial_state =
  _handle_form_submission decode_ascii parse_qs_ascii None quiet_world
    (post_with_length "8" "name=Ada") initial_state.
Proof.
  apply (bytes_beyond_length_ignored decode_ascii parse_qs_ascii None
           quiet_world _ _ initial_state 8).
  - reflexivity.
  - reflexivity.
  - vm_compute. reflexivity.
  - lia.
  - vm_compute. reflexivity.
Defined.

Lemma extract_fields_first_value_witness :
  extract_fields (parse_qs_ascii "name=+++&name=z&email=e") !! "name" =
    Some "   ".
Proof.
  destruct (extract_fields_first_value
              (parse_qs_ascii "name=+++&name=z&email=e") "name") as [H _].
  - apply (bool_decide_unpack (NoDup _)). vm_compute. exact I.
  - apply (H "   " ["z"]). vm_compute. apply list_elem_of_here.
Defined.

Lemma unknown_fields_ignored_witness :
  validate_and_dispatch None quiet_world
    (<["website" := "http://x.example"]> submission_ada) initial_state =
  validate_and_dispatch None quiet_world submission_ada initial_state.
Proof.
  apply (unknown_fields_ignored None quiet_world submission_ada).
  apply (bool_decide_unpack (_ ∉ _)). vm_compute. exact I.
Defined.

Lemma quit_failure_reported_as_failed_send_witness :
  ∃ st',
    _handle_form_submission decode_ascii parse_qs_ascii (Some config_example)
      world_quit_refused (post form_ada) initial_state = (Ok tt, st') ∧
    outbox st' =
      outbox initial_state ++
      [notification config_example world_quit_refused
         (extract_fields (parse_qs_ascii form_ada))] ∧
    wire st' = wire initial_state ++ [error_response msg_send_failed].
Proof.
  apply (quit_failure_reported_as_failed_send decode_ascii parse_qs_ascii
           config_example world_quit_refused (post form_ada) initial_state
           (extract_fields (parse_qs_ascii form_ada)) SMTPException).
  - vm_compute. reflexivity.
  - vm_compute. reflexivity.
  - unfold send_ops. repeat constructor.
  - reflexivity.
Defined.

Lemma log_blocks_in_arrival_order_witness :
  ∃ st1 st2,
    _handle_form_submission decode_ascii parse_qs_ascii None quiet_world
      (post form_ada) initial_state = (Ok tt, st1) ∧
    _handle_form_submission decode_ascii parse_qs_ascii None quiet_world
      (post form_blank_name) st1 = (Ok tt, st2) ∧
    log_file st2 =
      Some (default "" (log_file initial_state) +:+
            log_block quiet_world (extract_fields (parse_qs_ascii form_ada)) +:+
            log_block quiet_world
              (extract_fields (parse_qs_ascii form_blank_name))) ∧
    log_handle st2 = false ∧
    wire st2 = wire initial_state ++ [success_response msg_received;
                                       success_response msg_received].
Proof.
  apply (log_blocks_in_arrival_order decode_ascii parse_qs_ascii quiet_world
           quiet_world (post form_ada) (post form_blank_name) initial_state).
  - vm_compute. reflexivity.
  - vm_compute. reflexivity.
  - exact fs_ok_quiet.
  - vm_compute. reflexivity.
  - vm_compute. reflexivity.
  - exact fs_ok_quiet.
Defined.

Lemma email_body_embeds_values_witness :
  ∃ before after,
    _format_email_body quiet_world submission_ada =
    before +:+ "<p><strong>" +:+ "Budget" +:+ ":</strong> " +:+
    get_default submission_ada "budget" "N/A" +:+ "</p>" +:+ after.
Proof.
  apply (email_body_embeds_values quiet_world submission_ada "Budget" "budget").
  unfold body_rows. do 4 apply list_elem_of_further. apply list_elem_of_here.
Defined.

(** ** From the environment to the dispatch *)

Section EndToEnd.

Variable decode_utf8 : list Byte.byte → result string.
Variable parse_qs : string → list (string * list string).

(** X16.  In an environment whose [SMTP_PORT] is unset or a number and in
    which one of the three credentials is unset or empty, a POST to
    [/submit-form] with a submission that passes the validation, handled
    from the construction of the handler on, is logged and not mailed: when
    the file operations succeed the log file gains the block of the
    submission, nothing is handed to the mail server and the answer is the
    200 response with the received message. *)
Theorem missing_credential_means_logging w req st port submission :
  int_of_str (get_default (environ w) "SMTP_PORT" "587") = Some port →
  (∃ var, var ∈ ["SENDER_EMAIL"; "SENDER_PASSWORD"; "RECIPIENT_EMAIL"] ∧
          (environ w !! var = None ∨ environ w !! var = Some "")) →
  path req = "/submit-form" →
  received decode_utf8 parse_qs req = Ok submission →
  missing_fields submission = [] →
  fs_ok w →
  ∃ st',
    handle_post decode_utf8 parse_qs w req st = (Ok tt, st') ∧
    wire st' = wire st ++ [success_response msg_received] ∧
    log_file st' =
      Some (default "" (log_file st) +:+ log_block w submission) ∧
    outbox st' = outbox st.
Proof.
  intros Hp (var & Hvar & Hmiss) Hpath Hr Hm Hfs.
  unfold handle_post, bind, do_POST.
  rewrite (load_config_unfold w st port Hp), bool_decide_eq_true_2 by done.
  destruct (missing_credentials w) as [|c l] eqn:Hc.
  { destruct (proj1 (missing_credentials_nil w) Hc var Hvar) as (v & Hv & Hne).
    destruct Hmiss; congruence. }
  rewrite (handle_received_ok _ _ _ _ _ _ _ Hr),
    (dispatch_log_ok _ _ _ Hm Hfs).
  eexists. split; [reflexivity|]. done.
Qed.

(** X17.  In an environment whose [SMTP_PORT] is unset or a number and in
    which the three credentials are set and not empty, a POST to
    [/submit-form] with a submission that passes the validation, handled
    from the construction of the handler on, is mailed and not logged: when
    no step of the mail variant raises, one message goes to the server named
    by [SMTP_SERVER] (or [smtp.gmail.com]) on that port, with
    [SENDER_EMAIL] and [SENDER_PASSWORD] as login, from [SENDER_EMAIL] to
    [RECIPIENT_EMAIL], with the name of the submitter in the subject; the
    log file is untouched and the answer is the 200 response with the sent
    message. *)
Theorem credentials_mean_mailing w req st port submission sender password
    recipient :
  int_of_str (get_default (environ w) "SMTP_PORT" "587") = Some port →
  environ w !! "SENDER_EMAIL" = Some sender → sender ≠ "" →
  environ w !! "SENDER_PASSWORD" = Some password → password ≠ "" →
  environ w !! "RECIPIENT_EMAIL" = Some recipient → recipient ≠ "" →
  path req = "/submit-form" →
  received decode_utf8 parse_qs req = Ok submission →
  missing_fields submission = [] →
  mail_ok w →
  ∃ st' name,
    submission !! "name" = Some name ∧
    handle_post decode_utf8 parse_qs w req st = (Ok tt, st') ∧
    wire st' = wire st ++ [success_response msg_sent] ∧
    outbox st' = outbox st ++
      [{| mail_host := get_default (environ w) "SMTP_SERVER" "smtp.gmail.com";
          mail_port := port;
          mail_user := Some sender;
          mail_password := Some password;
          mail_from := Some sender;
          mail_to := Some recipient;
          mail_subject := "New Contact Form Submission from " +:+ name;
          mail_html := _format_email_body w submission |}] ∧
    log_file st' = log_file st.
Proof.
  intros Hp Hs Hsn Hpw Hpwn Hrc Hrcn Hpath Hr Hm Hok.
  destruct (valid_present submission "name" Hm) as (name & Hn & _);
    [by constructor|].
  unfold handle_post, bind, do_POST.
  rewrite (load_config_unfold w st port Hp), bool_decide_eq_true_2 by done.
  assert (missing_credentials w = []) as ->.
  { apply missing_credentials_nil. intros var Hvar.
    repeat (apply elem_of_cons in Hvar as [->|Hvar]); eauto.
    by apply elem_of_nil in Hvar. }
  rewrite (handle_received_ok _ _ _ _ _ _ _ Hr).
  match goal with
  | |- context [validate_and_dispatch (Some ?c)] =>
      destruct (dispatch_mail_ok parse_qs c w submission st Hm Hok)
        as (H1 & H2 & H3 & H4);
      destruct (try_except (validate_and_dispatch (Some c) w submission)
                  on_error st) as [r st'] eqn:E
  end.
  simpl in *. subst r. exists st', name. repeat split; try done.
  rewrite H3. unfold notification, get_default. simpl.
  by rewrite Hn, Hs, Hpw, Hrc.
Qed.

End EndToEnd.

Lemma mail_ok_configured : mail_ok world_configured.
Proof. unfold mail_ok, mail_ops. repeat constructor. Defined.

Lemma missing_credential_means_logging_witness :
  ∃ st',
    handle_post decode_ascii parse_qs_ascii quiet_world (post form_ada)
      initial_state = (Ok tt, st') ∧
    wire st' = wire initial_state ++ [success_response msg_received] ∧
    log_file st' =
      Some (default "" (log_file initial_state) +:+
            log_block quiet_world (extract_fields (parse_qs_ascii form_ada))) ∧
    outbox st' = outbox initial_state.
Proof.
  apply (missing_credential_means_logging decode_ascii parse_qs_ascii
           quiet_world (post form_ada) initial_state 587).
  - vm_compute. reflexivity.
  - exists "SENDER_EMAIL". split; [apply list_elem_of_here|].
    left. vm_compute. reflexivity.
  - reflexivity.
  - vm_compute. reflexivity.
  - vm_compute. reflexivity.
  - exact fs_ok_quiet.
Defined.

Lemma credentials_mean_mailing_witness :
  ∃ st' name,
    extract_fields (parse_qs_ascii form_ada) !! "name" = Some name ∧
    handle_post decode_ascii parse_qs_ascii world_configured (post form_ada)
      initial_state = (Ok tt, st') ∧
    wire st' = wire initial_state ++ [success_response msg_sent] ∧
    outbox st' = outbox initial_state ++
      [{| mail_host :=
            get_default (environ world_configured) "SMTP_SERVER"
              "smtp.gmail.com";
          mail_port := 2525;
          mail_user := Some "noreply@houseofagile.com";
          mail_password := Some "abcd efgh ijkl mnop";
          mail_from := Some "noreply@houseofagile.com";
          mail_to := Some "jc@houseofagile.com";
          mail_subject := "New Contact Form Submission from " +:+ name;
          mail_html :=
            _format_email_body world_configured
              (extract_fields (parse_qs_ascii form_ada)) |}] ∧
    log_file st' = log_file initial_state.
Proof.
  apply (credentials_mean_mailing decode_ascii parse_qs_ascii
           world_configured (post form_ada) initial_state 2525).
  - vm_compute. reflexivity.
  - vm_compute. reflexivity.
  - discriminate.
  - vm_compute. reflexivity.
  - discriminate.
  - vm_compute. reflexivity.
  - discriminate.
  - reflexivity.
  - vm_compute. reflexivity.
  - vm_compute. reflexivity.
  - exact mail_ok_configured.
Defined.
